(** * The usage-telemetry core of team-c-monitor

    A shallow embedding of [backend/app/core/sliding_window.py],
    [backend/app/core/metrics.py], [backend/app/core/anomalies.py] and the
    ingest route of [backend/app/main.py], followed by the properties of the
    retention window, the aggregator and the anomaly detector.

    Conventions.
    - Python exceptions are values of [exn]; a call that may raise returns
      a [result].
    - An instant is a number of microseconds since the epoch (the
      resolution of [datetime]).  A [datetime] is aware, and then denotes
      an instant, or offset-naive: the [LogEvent] model accepts both.
      [datetime.now] is an input: each operation that reads the clock
      takes the reading, an instant, as [now].
    - Doubles and numpy are outside the repository: they are the interface
      [Numerics], and [Binary64] is an instance on IEEE binary64 used to
      run the code on concrete inputs.
    - [logger.exception] only writes to the log and is left out. *)

From Stdlib Require Import ZArith QArith Sorting.Sorted.
From Stdlib Require Import Floats.PrimFloat Numbers.Cyclic.Int63.Uint63.
From stdpp Require Import base option list sorting strings gmap.

Open Scope Z_scope.

(** ** Exceptions and results *)

Inductive exn :=
  | AttributeError
  | TypeError
  | ZeroDivisionError
  | OverflowError
  | LibraryError (name : string)
  | ValueError (msg : string)
  | RuntimeError (msg : string)
  | HTTPException (status_code : Z) (detail : string).

Inductive result (A : Type) :=
  | Ok (a : A)
  | Raise (e : exn).
Arguments Ok {A} a.
Arguments Raise {A} e.

#[global] Instance result_ret : MRet result := λ A a, Ok a.
#[global] Instance result_bind : MBind result := λ A B f m,
  match m with
  | Ok a => f a
  | Raise e => Raise e
  end.
#[global] Instance result_fmap : FMap result := λ A B f m,
  match m with
  | Ok a => Ok (f a)
  | Raise e => Raise e
  end.

(** [str(exc)] for the exceptions that carry a message. *)
Definition str (e : exn) : string :=
  match e with
  | ValueError msg | RuntimeError msg => msg
  | HTTPException _ detail => detail
  | LibraryError name => name
  | OverflowError => "integer division result too large for a float"
  | AttributeError | TypeError | ZeroDivisionError => ""
  end.

(** ** Events (models.py)

    The functions of the core receive arbitrary objects: the test suites
    pass instances of an empty class.  An attribute is therefore optional;
    [None] is a missing attribute and reading it raises [AttributeError].
    The timestamp of an object that has one may still be Python's [None];
    otherwise it is a [datetime], with or without a time zone. *)

Inductive datetime :=
  | Aware (instant : Z)
  | Naive (wall_clock : Z).

Record LogEvent := {
  timestamp : option (option datetime);
  user_id : option string;
  latency_ms : option Z;
  tokens_used : option Z;
  is_error : option bool
}.

Definition getattr {A} (a : option A) : result A :=
  match a with
  | Some v => Ok v
  | None => Raise AttributeError
  end.

(** ** The retention window (sliding_window.py) *)

Module SlidingWindow.

Definition WINDOW_MINUTES : Z := 2.

(** [timedelta(minutes=m)] in microseconds. *)
Definition timedelta (minutes : Z) : Z := minutes * 60000000.

(** [events[0].timestamp < cutoff_time], where [cutoff_time] is aware:
    comparing [None] or an offset-naive datetime with it raises
    [TypeError]. *)
Definition timestamp_lt (e : LogEvent) (cutoff_time : Z) : result bool :=
  t ← getattr (timestamp e);
  match t with
  | Some (Aware t) => Ok (t <? cutoff_time)
  | Some (Naive _) => Raise TypeError
  | None => Raise TypeError
  end.

(** The [while] loop of [_evict_old_events] on the deque [q]: the pair is
    the outcome and the deque it leaves behind. *)
Fixpoint evict_loop (cutoff_time : Z) (q : list LogEvent)
  : result unit * list LogEvent :=
  match q with
  | [] => (Ok (), [])
  | e :: q' =>
      match timestamp_lt e cutoff_time with
      | Ok true => evict_loop cutoff_time q'
      | Ok false => (Ok (), q)
      | Raise x => (Raise x, q)
      end
  end.

Definition _evict_old_events (now : Z) (q : list LogEvent)
  : result unit * list LogEvent :=
  let cutoff_time := now - timedelta WINDOW_MINUTES in
  evict_loop cutoff_time q.

Definition add (now : Z) (event : LogEvent) (q : list LogEvent)
  : result unit * list LogEvent :=
  match getattr (timestamp event) with
  | Raise x => (Raise x, q)
  | Ok None => (Raise (ValueError "LogEvent timestamp cannot be None"), q)
  | Ok (Some _) =>
      match _evict_old_events now (q ++ [event]) with
      | (Ok _, q') => (Ok (), q')
      | (Raise _, q') => (Raise (RuntimeError "Sliding window update failed"), q')
      end
  end.

Definition get_events (now : Z) (q : list LogEvent)
  : result (list LogEvent) * list LogEvent :=
  match _evict_old_events now q with
  | (Ok _, q') => (Ok q', q')
  | (Raise _, q') =>
      (Raise (RuntimeError "Failed to retrieve sliding window events"), q')
  end.


(** The datetime carried by an event, when its timestamp is there and is
    not [None]. *)
Definition datetime_of (e : LogEvent) : option datetime := mjoin (timestamp e).

(** The instant carried by an event, when it has one: its timestamp is
    an aware datetime. *)
Definition time_of (e : LogEvent) : option Z :=
  match datetime_of e with
  | Some (Aware t) => Some t
  | _ => None
  end.



(** The age of [e] at [now] exceeds the retention duration. *)
Definition expired (now : Z) (e : LogEvent) : Prop :=
  ∃ t, time_of e = Some t ∧ now - t > timedelta WINDOW_MINUTES.

Definition within_range (now : Z) (e : LogEvent) : Prop :=
  ∃ t, time_of e = Some t ∧ now - t <= timedelta WINDOW_MINUTES.

(** [a] and [b] carry instants and [a] is not later than [b]. *)
Definition le_time (a b : LogEvent) : Prop :=
  ∃ ta tb, time_of a = Some ta ∧ time_of b = Some tb ∧ ta <= tb.

End SlidingWindow.

(** ** The ingest route (main.py) *)

Definition ingest_log (now : Z) (event : LogEvent) (sliding_window : list LogEvent)
  : result (gmap string string) * list LogEvent :=
  match SlidingWindow.add now event sliding_window with
  | (Ok _, q') => (Ok {[ "status" := "ok" ]}, q')
  | (Raise (ValueError _ as e), q') => (Raise (HTTPException 400 (str e)), q')
  | (Raise _, q') => (Raise (HTTPException 500 "Failed to ingest log event"), q')
  end.

(** ** Doubles and numpy

    Python floats are IEEE doubles and [np.mean], [np.std] and
    [np.percentile] are library calls.  The code is embedded over this
    interface, so whatever is proved of it holds for every behaviour of the
    numeric layer, faults included.
    - [rnd q] is the double nearest to the rational [q]: the value of a
      decimal literal, of an integer converted to a float, and of the true
      division of two integers;
    - [fadd], [fmul] and [fgt] are [+], [*] and [>] on doubles;
    - the numpy calls take the list the array is built from, and may
      raise. *)

Class Numerics := {
  pyfloat : Type;
  rnd : Q → pyfloat;
  fadd : pyfloat → pyfloat → pyfloat;
  fmul : pyfloat → pyfloat → pyfloat;
  fgt : pyfloat → pyfloat → bool;
  np_mean : list Z → result pyfloat;
  np_std : list Z → result pyfloat;
  np_percentile : list Z → Z → result pyfloat
}.

Section Core.
Context {N : Numerics}.

(** The values found in a metrics dictionary. *)
Inductive pyval :=
  | PyNone
  | PyInt (z : Z)
  | PyFloat (f : pyfloat)
  | PyDict (d : gmap string Z).

(** [not events] for a list. *)
Definition py_not {A} (l : list A) : bool :=
  match l with
  | [] => true
  | _ :: _ => false
  end.

(** The least magnitude that does not round to a double: halfway between
    the largest double, [2^1024 - 2^971], and [2^1024]. *)
Definition FLOAT_OVERFLOW : Z := 2 ^ 1024 - 2 ^ 970.

(** [a / b] on integers: the double nearest to the quotient, and
    [OverflowError] when the quotient is too large for a double. *)
Definition truediv (a b : Z) : result pyfloat :=
  if b =? 0 then Raise ZeroDivisionError
  else if FLOAT_OVERFLOW * Z.abs b <=? Z.abs a then Raise OverflowError
  else Ok (rnd (inject_Z a / inject_Z b)%Q).
#[global] Arguments FLOAT_OVERFLOW : simpl never.

Definition sum_Z (l : list Z) : Z := foldr Z.add 0 l.

(** *** metrics.py *)

(** Example cost model (USD per 1K tokens): the literal [0.002]. *)
Definition TOKEN_COST_PER_1K : pyfloat := rnd (2 # 1000).

(** The loop filling [per_user_requests], a [defaultdict(int)]. *)
Fixpoint count_requests (events : list LogEvent) (per_user_requests : gmap string Z)
  : result (gmap string Z) :=
  match events with
  | [] => Ok per_user_requests
  | event :: events' =>
      u ← getattr (user_id event);
      count_requests events'
        (<[u := default 0 (per_user_requests !! u) + 1]> per_user_requests)
  end.

(** The body of the [try] statement of [compute_metrics]. *)
Definition compute_try (events : list LogEvent) (window_minutes : Z)
  : result (gmap string pyval) :=
  latencies_ms ← mapM (λ event, getattr (latency_ms event)) events;
  let total_requests := Z.of_nat (length events) in
  errors ← mapM (λ event, getattr (is_error event)) events;
  let total_errors := sum_Z ((λ b : bool, if b then 1 else 0) <$> errors) in
  tokens ← mapM (λ event, getattr (tokens_used event)) events;
  let total_tokens := sum_Z tokens in
  per_user_requests ← count_requests events ∅;
  avg_latency ← np_mean latencies_ms;
  p50_latency ← np_percentile latencies_ms 50;
  p95_latency ← np_percentile latencies_ms 95;
  p99_latency ← np_percentile latencies_ms 99;
  error_rate ← truediv total_errors total_requests;
  thousands ← truediv total_tokens 1000;
  Ok (<["requests_per_min" := PyInt (total_requests / window_minutes)]>
     (<["avg_latency" := PyFloat avg_latency]>
     (<["p50_latency" := PyFloat p50_latency]>
     (<["p95_latency" := PyFloat p95_latency]>
     (<["p99_latency" := PyFloat p99_latency]>
     (<["error_rate" := PyFloat error_rate]>
     (<["tokens_per_min" := PyInt (total_tokens / window_minutes)]>
     (<["estimated_cost_usd" := PyFloat (fmul thousands TOKEN_COST_PER_1K)]>
     (<["per_user_requests" := PyDict per_user_requests]> ∅))))))))).

Definition compute_metrics (events : list LogEvent) (window_minutes : Z)
  : result (gmap string pyval) :=
  if py_not events then Ok ∅
  else if window_minutes <=? 0
  then Raise (ValueError "window_minutes must be a positive integer")
  else
    match compute_try events window_minutes with
    | Ok metrics => Ok metrics
    | Raise AttributeError => Raise (ValueError "Invalid log event structure")
    | Raise _ => Raise (RuntimeError "Metric computation failed")
    end.

(** *** anomalies.py *)

Definition MIN_EVENTS_FOR_ANALYSIS : Z := 5.
Definition LATENCY_STD_MULTIPLIER : Z := 3.
(** The literal [0.10]. *)
Definition MAX_ERROR_RATE : pyfloat := rnd (10 # 100).

Definition CRITICAL_LATENCY : string := "CRITICAL: Latency spike detected".
Definition WARNING_ERROR_RATE : string := "WARNING: High error rate detected".
Definition ERROR_DETECTION : string := "ERROR: Anomaly detection failed".

(** [latencies.max()]; numpy refuses an empty array. *)
Definition array_max (latencies : list Z) : result Z :=
  match latencies with
  | [] => Raise (ValueError "zero-size array to reduction operation maximum which has no identity")
  | x :: l => Ok (foldr Z.max x l)
  end.

(** [v > c] for a float [c]: an integer is converted, a value that is not
    a number cannot be ordered against a float. *)
Definition py_gt (v : pyval) (c : pyfloat) : result bool :=
  match v with
  | PyFloat f => Ok (fgt f c)
  | PyInt z => Ok (fgt (rnd (inject_Z z)) c)
  | PyNone | PyDict _ => Raise TypeError
  end.

(** [latencies.max() > mean_latency + (LATENCY_STD_MULTIPLIER * std_latency)] *)
Definition latency_spike (max_latency : Z) (mean_latency std_latency : pyfloat) : bool :=
  fgt (rnd (inject_Z max_latency))
      (fadd mean_latency (fmul (rnd (inject_Z LATENCY_STD_MULTIPLIER)) std_latency)).

(** The body of the [try] statement of [detect_anomalies], started with
    the list [anomalies]: the pair is the outcome and the list as the body
    leaves it, also when it raises. *)
Definition detect_try (events : list LogEvent) (metrics : gmap string pyval)
    (anomalies : list string) : result unit * list string :=
  match
    (latencies ← mapM (λ event, getattr (latency_ms event)) events;
     mean_latency ← np_mean latencies;
     std_latency ← np_std latencies;
     max_latency ← array_max latencies;
     Ok (latency_spike max_latency mean_latency std_latency)) : result bool
  with
  | Raise e => (Raise e, anomalies)
  | Ok spike =>
      let anomalies := if spike then anomalies ++ [CRITICAL_LATENCY] else anomalies in
      let error_rate := default (PyFloat (rnd 0)) (metrics !! "error_rate") in
      match py_gt error_rate MAX_ERROR_RATE with
      | Raise e => (Raise e, anomalies)
      | Ok high =>
          (Ok (), if high then anomalies ++ [WARNING_ERROR_RATE] else anomalies)
      end
  end.

Definition detect_anomalies (events : list LogEvent) (metrics : gmap string pyval)
  : result (list string) :=
  let anomalies := [] in
  if py_not events || (Z.of_nat (length events) <? MIN_EVENTS_FOR_ANALYSIS)
  then Ok anomalies
  else
    match detect_try events metrics anomalies with
    | (Ok _, anomalies) => Ok anomalies
    | (Raise AttributeError, _) => Raise (ValueError "Invalid log event structure")
    | (Raise _, anomalies) => Ok (anomalies ++ [ERROR_DETECTION])
    end.

(** *** main.py

    The two calls of the [/metrics] route on the events of the window:
    [compute_metrics(events)], with its default window of 2 minutes, then
    [detect_anomalies(events, metrics)]. *)
Definition route_anomalies (events : list LogEvent) : result (list string) :=
  metrics ← compute_metrics events 2;
  detect_anomalies events metrics.

End Core.

(** ** An instance on IEEE binary64

    Primitive floats are binary64 with round-to-nearest-even, as Python's.
    The numpy calls follow the documented formulas with sums taken left to
    right: the mean is [sum / n], the standard deviation is the square root
    of the mean squared deviation, the percentile interpolates linearly
    between the two order statistics around rank [q / 100 * (n - 1)].
    Integers are converted through 63-bit machine integers, so the instance
    is meant for magnitudes below [2^53], where the conversion is exact. *)

Module Binary64.

Definition float_of_Z (z : Z) : float :=
  if z <? 0 then PrimFloat.opp (PrimFloat.of_uint63 (Uint63.of_Z (- z)))
  else PrimFloat.of_uint63 (Uint63.of_Z z).

Definition of_Q (q : Q) : float :=
  PrimFloat.div (float_of_Z (Qnum q)) (float_of_Z (Zpos (Qden q))).

Definition fsum (l : list float) : float := fold_left PrimFloat.add l 0%float.

Definition mean (a : list Z) : float :=
  PrimFloat.div (fsum (float_of_Z <$> a)) (float_of_Z (Z.of_nat (length a))).

Definition std (a : list Z) : float :=
  let m := mean a in
  let sq := (λ x, let d := PrimFloat.sub (float_of_Z x) m in PrimFloat.mul d d) <$> a in
  PrimFloat.sqrt (PrimFloat.div (fsum sq) (float_of_Z (Z.of_nat (length a)))).

(** numpy's [_lerp] between [a] and [b] at [t]. *)
Definition lerp (a b t : float) : float :=
  let diff_b_a := PrimFloat.sub b a in
  if PrimFloat.leb 0.5%float t
  then PrimFloat.sub b (PrimFloat.mul diff_b_a (PrimFloat.sub 1%float t))
  else PrimFloat.add a (PrimFloat.mul diff_b_a t).

Definition percentile (a : list Z) (q : Z) : result float :=
  match a with
  | [] => Raise (LibraryError "IndexError")
  | x :: _ =>
      let sorted := merge_sort Z.le a in
      let rank := q * (Z.of_nat (length a) - 1) in
      let previous := rank / 100 in
      let gamma := of_Q (Qmake (rank mod 100) 100) in
      let lo := nth (Z.to_nat previous) sorted x in
      let hi := nth (Z.to_nat (previous + 1)) sorted lo in
      Ok (lerp (float_of_Z lo) (float_of_Z hi) gamma)
  end.

#[global] Instance numerics : Numerics := {|
  pyfloat := float;
  rnd := of_Q;
  fadd := PrimFloat.add;
  fmul := PrimFloat.mul;
  fgt := λ x y, PrimFloat.ltb y x;
  np_mean := λ a, Ok (mean a);
  np_std := λ a, Ok (std a);
  np_percentile := percentile
|}.

End Binary64.

(** ** Sample inputs *)

Definition make_event (minutes_ago : Z) (now : Z) : LogEvent := {|
  timestamp := Some (Some (Aware (now - SlidingWindow.timedelta minutes_ago)));
  user_id := Some "user123"%string;
  latency_ms := Some 120;
  tokens_used := Some 50;
  is_error := Some false
|}.

Definition sample_event (latency tokens : Z) (err : bool) : LogEvent := {|
  timestamp := Some (Some (Aware 0));
  user_id := Some "user123"%string;
  latency_ms := Some latency;
  tokens_used := Some tokens;
  is_error := Some err
|}.

(** 19 events at latency 100 and one at latency 1000
    (test_latency_spike_detected). *)
Definition spike_events : list LogEvent :=
  replicate 19 (sample_event 100 50 false) ++ [sample_event 1000 50 false].

(** An object that has a [latency_ms] attribute and nothing else. *)
Definition latency_only_event (latency : Z) : LogEvent := {|
  timestamp := None; user_id := None; latency_ms := Some latency;
  tokens_used := None; is_error := None
|}.

(** An object that has every attribute but [timestamp]. *)
Definition untimed_event : LogEvent := {|
  timestamp := None;
  user_id := Some "user123"%string;
  latency_ms := Some 200;
  tokens_used := Some 100;
  is_error := Some false
|}.

(** The events of test_multiple_users: two requests of user1, one of
    user2 and one of user3. *)
Definition user_event (user : string) (latency : Z) : LogEvent := {|
  timestamp := Some (Some (Aware 0));
  user_id := Some user;
  latency_ms := Some latency;
  tokens_used := Some 50;
  is_error := Some false
|}.

Definition multi_user_events : list LogEvent :=
  [user_event "user1" 100; user_event "user1" 150;
   user_event "user2" 200; user_event "user3" 250].

(** An event charged more tokens than a double can hold thousands of. *)
Definition huge_tokens_event : LogEvent := sample_event 200 (10 ^ 400) false.

(** An event whose timestamp has no time zone. *)
Definition naive_event : LogEvent := {|
  timestamp := Some (Some (Naive 0));
  user_id := Some "user123"%string;
  latency_ms := Some 120;
  tokens_used := Some 50;
  is_error := Some false
|}.

(** An event whose [timestamp] attribute is [None]. *)
Definition null_timestamp_event : LogEvent := {|
  timestamp := Some None;
  user_id := Some "user123"%string;
  latency_ms := Some 120;
  tokens_used := Some 50;
  is_error := Some false
|}.

(** An instance of the empty class the test suites call [InvalidEvent]. *)
Definition InvalidEvent : LogEvent := {|
  timestamp := None; user_id := None; latency_ms := None;
  tokens_used := None; is_error := None
|}.

(** ** The field constraints of [LogEvent] (models.py)

    What the declaration of the model requires of an event built through
    it: every field present, a timestamp, a [user_id] of at least one
    character, [latency_ms > 0] and [tokens_used >= 0]. *)

Definition valid_log_event (e : LogEvent) : bool :=
  match timestamp e, user_id e, latency_ms e, tokens_used e, is_error e with
  | Some (Some _), Some u, Some l, Some t, Some _ =>
      (1 <=? Z.of_nat (String.length u)) && (0 <? l) && (0 <=? t)
  | _, _, _, _, _ => false
  end.

(** ** The metrics route (main.py)

    The route ends by building a [MetricsResponse] from the entries of
    [metrics] and from [anomalies].  That is the constructor of a pydantic
    model: it validates its fields and may raise.  It is taken as the
    parameter [MetricsResponse]; [response] is the type of the objects it
    builds. *)

Section Route.
Context {N : Numerics}.
Context {response : Type}.
Variable MetricsResponse : gmap string pyval → list string → result response.

(** The body of the [try] statement of [get_metrics], after
    [sliding_window.get_events()] gave [snapshot]. *)
Definition get_metrics_try (snapshot : result (list LogEvent)) : result response :=
  events ← snapshot;
  if py_not events then Raise (HTTPException 404 "No metrics available yet")
  else
    metrics ← compute_metrics events 2;
    anomalies ← detect_anomalies events metrics;
    MetricsResponse metrics anomalies.

Definition get_metrics (now : Z) (sliding_window : list LogEvent)
  : result response * list LogEvent :=
  let '(snapshot, q') := SlidingWindow.get_events now sliding_window in
  match get_metrics_try snapshot with
  | Ok r => (Ok r, q')
  | Raise (HTTPException status_code detail) =>
      (Raise (HTTPException status_code detail), q')
  | Raise (ValueError _ as e) => (Raise (HTTPException 400 (str e)), q')
  | Raise _ => (Raise (HTTPException 500 "Failed to compute metrics"), q')
  end.

End Route.

(** A run of the ingest route: the service answers each call and goes on
    with the window the call left, whether it returned or raised. *)
Fixpoint ingest_all (calls : list (Z * LogEvent)) (q : list LogEvent)
  : list LogEvent :=
  match calls with
  | [] => q
  | (now, event) :: calls' => ingest_all calls' (ingest_log now event q).2
  end.

(** ** What the results are measured against *)

(** The number of events attributed to [user]. *)
Definition requests_of (user : string) (events : list LogEvent) : Z :=
  Z.of_nat (length (filter (λ e, user_id e = Some user) events)).

(** The number of events flagged as errors. *)
Definition errors_of (events : list LogEvent) : Z :=
  Z.of_nat (length (filter (λ e, is_error e = Some true) events)).

(** The tokens charged for the events. *)
Definition tokens_of (events : list LogEvent) : Z :=
  sum_Z ((λ e, default 0 (tokens_used e)) <$> events).

(** The events have the four attributes the aggregator reads. *)
Definition aggregable (e : LogEvent) : Prop :=
  is_Some (latency_ms e) ∧ is_Some (is_error e)
  ∧ is_Some (tokens_used e) ∧ is_Some (user_id e).

#[global] Instance aggregable_dec (e : LogEvent) : Decision (aggregable e).
Proof. unfold aggregable. apply _. Defined.

(** The value of a call that returned, [d] for a call that raised. *)
Definition result_value {A} (d : A) (r : result A) : A :=
  match r with
  | Ok a => a
  | Raise _ => d
  end.

(** Whether a call returned. *)
Definition is_ok {A} (r : result A) : bool :=
  match r with
  | Ok _ => true
  | Raise _ => false
  end.

(** A response constructor that validates nothing. *)
Definition unchecked_response {N : Numerics}
    (metrics : gmap string pyval) (anomalies : list string)
  : result (gmap string pyval * list string) :=
  Ok (metrics, anomalies).

(** * Properties *)

(** ** The retention window *)

Section WindowFacts.
Import SlidingWindow.

Lemma timestamp_lt_Ok e c b :
  timestamp_lt e c = Ok b ↔ ∃ t, time_of e = Some t ∧ b = (t <? c).
Proof.
  unfold timestamp_lt, time_of, datetime_of.
  destruct e as [[[[t|t]|]|] ? ? ? ?]; simpl.
  - split; [intros [= <-]; eauto | intros (t' & [= <-] & ->); done].
  - split; [done | intros (t' & [=] & _)].
  - split; [done | intros (t' & [=] & _)].
  - split; [done | intros (t' & [=] & _)].
Qed.

Lemma time_of_timestamp e t :
  time_of e = Some t ↔ timestamp e = Some (Some (Aware t)).
Proof.
  unfold time_of, datetime_of. destruct (timestamp e) as [[[t'|t']|]|]; simpl;
    split; intros H; by simplify_eq.
Qed.

Lemma expired_iff now e :
  expired now e ↔ timestamp_lt e (now - timedelta WINDOW_MINUTES) = Ok true.
Proof.
  rewrite timestamp_lt_Ok. unfold expired. split.
  - intros (t & Ht & Hlt). exists t. split; [done|]. symmetry. apply Z.ltb_lt. lia.
  - intros (t & Ht & Hlt). exists t. split; [done|].
    symmetry in Hlt. apply Z.ltb_lt in Hlt. lia.
Qed.

Lemma within_range_iff now e :
  within_range now e ↔ timestamp_lt e (now - timedelta WINDOW_MINUTES) = Ok false.
Proof.
  rewrite timestamp_lt_Ok. unfold within_range. split.
  - intros (t & Ht & Hle). exists t. split; [done|]. symmetry. apply Z.ltb_ge. lia.
  - intros (t & Ht & Hle). exists t. split; [done|].
    symmetry in Hle. apply Z.ltb_ge in Hle. lia.
Qed.

Lemma expired_not_within_range now e : expired now e → ¬ within_range now e.
Proof.
  intros (t & Ht & Hgt) (t' & Ht' & Hle). rewrite Ht in Ht'. simplify_eq. lia.
Qed.

(** The sweep pops a prefix of expired events, whatever its outcome. *)
Lemma evict_prefix now q :
  ∃ p, q = p ++ (_evict_old_events now q).2 ∧ Forall (expired now) p.
Proof.
  unfold _evict_old_events. induction q as [|e q IH]; simpl.
  - exists []. by split.
  - destruct (timestamp_lt e _) as [[|]|x] eqn:He; simpl.
    + destruct IH as (p & Hq & Hp). exists (e :: p). split.
      * simpl. by f_equal.
      * constructor; [by apply expired_iff | done].
    + exists []. by split.
    + exists []. by split.
Qed.

(** A sweep that returns stopped on an empty deque or at a head within
    range. *)
Lemma evict_head now q q' :
  _evict_old_events now q = (Ok (), q') →
  ∀ e, head q' = Some e → within_range now e.
Proof.
  unfold _evict_old_events. induction q as [|e q IH]; simpl.
  - intros [= <-] e' [=].
  - destruct (timestamp_lt e _) as [[|]|x] eqn:He; [done| |done].
    intros [= <-] e' [= <-]. by apply within_range_iff.
Qed.

(** On events that all carry an instant the sweep returns. *)
Lemma evict_returns now q :
  Forall (λ e, is_Some (time_of e)) q →
  ∃ q', _evict_old_events now q = (Ok (), q').
Proof.
  unfold _evict_old_events. induction 1 as [|e q [t Ht] _ IH]; simpl; [eauto|].
  assert (timestamp_lt e (now - timedelta WINDOW_MINUTES)
          = Ok (t <? now - timedelta WINDOW_MINUTES)) as ->
    by (apply timestamp_lt_Ok; eauto).
  destruct (t <? _); eauto.
Qed.

(** A sweep whose head is within range changes nothing. *)
Lemma evict_fixed now q :
  (∀ e, head q = Some e → within_range now e) →
  _evict_old_events now q = (Ok (), q).
Proof.
  unfold _evict_old_events. destruct q as [|e q]; simpl; [done|].
  intros H. specialize (H e eq_refl). apply within_range_iff in H. by rewrite H.
Qed.

Lemma le_time_trans : Transitive le_time.
Proof.
  intros a b c (ta & tb & Ha & Hb & Hab) (tb' & tc & Hb' & Hc & Hbc).
  rewrite Hb in Hb'. simplify_eq. exists ta, tc. repeat split; [done..|lia].
Qed.






End WindowFacts.

Section WindowClaims.
Import SlidingWindow.



(** C5, as stated, fails: an event exactly 2 minutes old is returned by a
    first [get_events] and evicted by a second one read one microsecond
    later. *)
Lemma snapshot_twice_counterexample :
  let now := 1700000000000000 in
  let q := [make_event 2 now] in
  ∃ q1 q2,
    get_events now q = (Ok q, q1) ∧
    get_events (now + 1) q1 = (Ok [], q2) ∧
    Ok q ≠ Ok (A:=list LogEvent) [].
Proof. exists [make_event 2 1700000000000000], []. by repeat split. Qed.

(** C5 (amended).  After a [get_events] that returned [l], a second one
    with no [add] in between returns [l] again, leaving the deque as it
    was, exactly when the first event of [l], if there is one, is still
    within the retention duration at the second clock reading; this is so
    in particular when both calls read the same clock value.  When that
    event has expired at the second reading, the second call pops it and
    leaves a strictly shorter deque. *)
Theorem snapshot_idempotent (q q1 l : list LogEvent) (now1 now2 : Z) :
  get_events now1 q = (Ok l, q1) →
  get_events now1 q1 = (Ok l, q1) ∧
  (get_events now2 q1 = (Ok l, q1)
   ↔ ∀ e, head l = Some e → within_range now2 e) ∧
  ((∃ e, head l = Some e ∧ expired now2 e) →
   (length (get_events now2 q1).2 < length l)%nat).
Proof.
  unfold get_events.
  destruct (_evict_old_events now1 q) as [[[]|x] q'] eqn:Hq; [|done].
  intros [= <- <-].
  pose proof (evict_head now1 q q' Hq) as Hhead1.
  assert ((∃ e, head q' = Some e ∧ expired now2 e) →
          (length (_evict_old_events now2 q').2 < length q')%nat) as Hshort.
  { intros (e & He & Hexp). destruct q' as [|e' l']; simplify_eq/=.
    apply expired_iff in Hexp. unfold _evict_old_events in *. simpl. rewrite Hexp.
    destruct (evict_prefix now2 l') as (p & Hp & _).
    unfold _evict_old_events in Hp. apply (f_equal length) in Hp.
    rewrite length_app in Hp. lia. }
  split; [|split].
  - rewrite evict_fixed; done.
  - split.
    + intros H e He. destruct (Hhead1 e He) as (t & Ht & _).
      destruct (decide (now2 - t <= timedelta WINDOW_MINUTES)) as [Hle|Hgt].
      { by exists t. }
      exfalso. assert (expired now2 e) as Hexp by (exists t; split; [done|lia]).
      specialize (Hshort (ex_intro _ e (conj He Hexp))).
      destruct (_evict_old_events now2 q') as [[[]|?] q2]; simplify_eq/=. lia.
    + intros Hhead. by rewrite evict_fixed.
  - intros Hex. specialize (Hshort Hex).
    by destruct (_evict_old_events now2 q') as [[[]|?] q2].
Qed.

Lemma snapshot_idempotent_witness :
  let now := 1700000000000000 in
  let q := [make_event 5 now; make_event 1 now; make_event 0 now] in
  let l := [make_event 1 now; make_event 0 now] in
  get_events now q = (Ok l, l) ∧
  get_events now l = (Ok l, l) ∧
  (get_events (now + 30000000) l = (Ok l, l)
   ↔ ∀ e, head l = Some e → within_range (now + 30000000) e) ∧
  ((∃ e, head l = Some e ∧ expired (now + 30000000) e) →
   (length (get_events (now + 30000000) l).2 < length l)%nat).
Proof.
  intros now q l. split; [reflexivity|].
  apply (snapshot_idempotent q l l now (now + 30000000)). reflexivity.
Defined.

(** C8, as stated, fails: [add] raises [ValueError], not the
    [RuntimeError] that stands for an internal failure of the store, and
    the ingest route answers 400, the status of expected errors, not 500. *)
Lemma null_timestamp_counterexample :
  (add 0 null_timestamp_event []).1
    = Raise (ValueError "LogEvent timestamp cannot be None") ∧
  (¬ ∃ msg, (add 0 null_timestamp_event []).1 = Raise (RuntimeError msg)) ∧
  (¬ ∃ detail,
       (ingest_log 0 null_timestamp_event []).1 = Raise (HTTPException 500 detail)).
Proof.
  split; [reflexivity|]. split; intros [? [=]].
Qed.

(** C8 (amended).  For an event whose timestamp is [None], [add] raises
    [ValueError "LogEvent timestamp cannot be None"] and the deque is
    unchanged; [ingest_log] turns it into a 400 response with that
    message. *)
Theorem null_timestamp_rejected (event : LogEvent) (now : Z) (q : list LogEvent) :
  timestamp event = Some None →
  add now event q = (Raise (ValueError "LogEvent timestamp cannot be None"), q) ∧
  ingest_log now event q
    = (Raise (HTTPException 400 "LogEvent timestamp cannot be None"), q).
Proof.
  intros H. unfold ingest_log, add. by rewrite H.
Qed.

Lemma null_timestamp_rejected_witness :
  let q := [make_event 0 0] in
  timestamp null_timestamp_event = Some None ∧
  add 7 null_timestamp_event q
    = (Raise (ValueError "LogEvent timestamp cannot be None"), q) ∧
  ingest_log 7 null_timestamp_event q
    = (Raise (HTTPException 400 "LogEvent timestamp cannot be None"), q).
Proof.
  intros q. split; [reflexivity|].
  apply (null_timestamp_rejected null_timestamp_event 7 q). reflexivity.
Defined.

End WindowClaims.

(** ** Reading attributes *)

Section AttributeFacts.
Context {A : Type} (f : LogEvent → option A).

(** Reading one attribute off every event either collects the values or
    raises [AttributeError], and raises exactly when an event lacks it. *)
Lemma mapM_getattr_Ok (events : list LogEvent) :
  Forall (λ e, is_Some (f e)) events →
  ∃ vs, mapM (λ e, getattr (f e)) events = Ok vs ∧ length vs = length events.
Proof.
  induction 1 as [|e events [v Hv] _ (vs & IH & Hlen)]; simpl.
  - by exists [].
  - rewrite Hv, IH. simpl. exists (v :: vs). split; [done|]. simpl. by f_equal.
Qed.

Lemma mapM_getattr_Raise (events : list LogEvent) :
  Exists (λ e, f e = None) events →
  mapM (λ e, getattr (f e)) events = Raise AttributeError.
Proof.
  induction 1 as [e events He|e events _ IH]; simpl.
  - by rewrite He.
  - rewrite IH. by destruct (f e).
Qed.

Lemma mapM_getattr_cases (events : list LogEvent) :
  (∃ vs, mapM (λ e, getattr (f e)) events = Ok vs ∧ length vs = length events)
  ∨ mapM (λ e, getattr (f e)) events = Raise AttributeError.
Proof.
  destruct (decide (Forall (λ e, is_Some (f e)) events)) as [H|H].
  - left. by apply mapM_getattr_Ok.
  - right. apply mapM_getattr_Raise. apply not_Forall_Exists in H; [|apply _].
    eapply Exists_impl; [exact H|]. intros e He. simpl in He.
    destruct (f e); [|done]. destruct He. eauto.
Qed.

End AttributeFacts.

Section CoreFacts.
Context {N : Numerics}.

Lemma count_requests_cases (events : list LogEvent) (m : gmap string Z) :
  (∃ m', count_requests events m = Ok m')
  ∨ count_requests events m = Raise AttributeError.
Proof.
  revert m. induction events as [|e events IH]; intros m; simpl; [eauto|].
  destruct (user_id e); simpl; [apply IH | by right].
Qed.

Lemma count_requests_Raise (events : list LogEvent) (m : gmap string Z) :
  Exists (λ e, user_id e = None) events →
  count_requests events m = Raise AttributeError.
Proof.
  intros H. revert m. induction H as [e events He|e events _ IH]; intros m; simpl.
  - by rewrite He.
  - destruct (user_id e); simpl; [apply IH | done].
Qed.

(** An event lacking one of the four attributes the aggregator reads makes
    the body of its [try] raise [AttributeError], before any numeric call. *)
Lemma compute_try_malformed (events : list LogEvent) (window_minutes : Z) :
  Exists (λ e, latency_ms e = None ∨ is_error e = None
               ∨ tokens_used e = None ∨ user_id e = None) events →
  compute_try events window_minutes = Raise AttributeError.
Proof.
  intros H. unfold compute_try.
  destruct (decide (Exists (λ e, latency_ms e = None) events)) as [H1|H1].
  { by rewrite (mapM_getattr_Raise latency_ms). }
  destruct (mapM_getattr_cases latency_ms events) as [(ls & -> & _)| ->]; [|done].
  simpl.
  destruct (decide (Exists (λ e, is_error e = None) events)) as [H2|H2].
  { by rewrite (mapM_getattr_Raise is_error). }
  destruct (mapM_getattr_cases is_error events) as [(es & -> & _)| ->]; [|done].
  simpl.
  destruct (decide (Exists (λ e, tokens_used e = None) events)) as [H3|H3].
  { by rewrite (mapM_getattr_Raise tokens_used). }
  destruct (mapM_getattr_cases tokens_used events) as [(ts & -> & _)| ->]; [|done].
  simpl.
  destruct (decide (Exists (λ e, user_id e = None) events)) as [H4|H4].
  { by rewrite count_requests_Raise. }
  exfalso. apply Exists_exists in H as (e & Hin & [He|[He|[He|He]]]);
    [apply H1|apply H2|apply H3|apply H4]; apply Exists_exists; eauto.
Qed.

Lemma FLOAT_OVERFLOW_gt_1 : 1 < FLOAT_OVERFLOW.
Proof. by vm_compute. Qed.

(** True division returns exactly when the divisor is not zero and the
    quotient is below the overflow threshold. *)
Lemma truediv_Ok (a b : Z) :
  b ≠ 0 → Z.abs a < FLOAT_OVERFLOW * Z.abs b →
  truediv a b = Ok (rnd (inject_Z a / inject_Z b)%Q).
Proof.
  intros Hb Hlt. unfold truediv.
  apply Z.eqb_neq in Hb as ->. by apply Z.leb_gt in Hlt as ->.
Qed.

Lemma truediv_overflow (a b : Z) :
  b ≠ 0 → FLOAT_OVERFLOW * Z.abs b <= Z.abs a →
  truediv a b = Raise OverflowError.
Proof.
  intros Hb Hle. unfold truediv.
  apply Z.eqb_neq in Hb as ->. by apply Z.leb_le in Hle as ->.
Qed.

(** A share of a positive whole never overflows. *)
Lemma truediv_share (a b : Z) :
  0 <= a <= b → 0 < b →
  truediv a b = Ok (rnd (inject_Z a / inject_Z b)%Q).
Proof.
  intros Ha Hb. apply truediv_Ok; [lia|].
  pose proof FLOAT_OVERFLOW_gt_1. nia.
Qed.

Lemma truediv_not_AttributeError (a b : Z) : truediv a b ≠ Raise AttributeError.
Proof. unfold truediv. by repeat case_match. Qed.

Lemma array_max_is_max (latencies : list Z) :
  latencies ≠ [] →
  ∃ m, array_max latencies = Ok m ∧ m ∈ latencies ∧ ∀ x, x ∈ latencies → x <= m.
Proof.
  destruct latencies as [|x l]; [done|]. intros _. simpl.
  exists (foldr Z.max x l). split; [done|].
  induction l as [|y l [IHin IHmax]]; simpl.
  - split; [left|]. intros z Hz%list_elem_of_singleton. lia.
  - split.
    + destruct (Z.max_spec y (foldr Z.max x l)) as [[_ ->]|[_ ->]].
      * apply elem_of_cons in IHin as [->|Hin]; [left|]. by do 2 right.
      * right. left.
    + intros z [Hz|[Hz|Hz]%elem_of_cons]%elem_of_cons.
      * specialize (IHmax z). rewrite Hz in IHmax.
        specialize (IHmax (list_elem_of_here _ _)). lia.
      * lia.
      * specialize (IHmax z (list_elem_of_further _ _ _ Hz)). lia.
Qed.

(** The lists the body of the detector's [try] can leave behind. *)
Lemma detect_try_shape (events : list LogEvent) (metrics : gmap string pyval) :
  match detect_try events metrics [] with
  | (Ok _, l) =>
      l = [] ∨ l = [CRITICAL_LATENCY] ∨ l = [WARNING_ERROR_RATE]
      ∨ l = [CRITICAL_LATENCY; WARNING_ERROR_RATE]
  | (Raise _, l) => l = [] ∨ l = [CRITICAL_LATENCY]
  end.
Proof.
  unfold detect_try.
  destruct (_ : result bool) as [spike|e]; [|by left].
  destruct (py_gt _ _) as [high|e]; destruct spike; try destruct high; simpl; auto.
Qed.

End CoreFacts.

(** ** The anomaly detector *)

Section DetectorClaims.
Context {N : Numerics}.

Lemma mapM_getattr_Forall2 {A} (f : LogEvent → option A) events vs :
  Forall2 (λ e v, f e = Some v) events vs →
  mapM (λ e, getattr (f e)) events = Ok vs.
Proof.
  induction 1 as [|e v events vs He _ IH]; simpl; [done|].
  by rewrite He, IH.
Qed.

Lemma detect_guard_passed (events : list LogEvent) :
  (5 ≤ length events)%nat →
  py_not events || (Z.of_nat (length events) <? MIN_EVENTS_FOR_ANALYSIS) = false.
Proof.
  intros H. destruct events as [|e events]; [simpl in H; lia|].
  cbn [py_not orb]. apply Z.ltb_ge. unfold MIN_EVENTS_FOR_ANALYSIS. lia.
Qed.

(** C4.  With fewer than 5 events the detector returns the empty list,
    whatever the events and the metrics are. *)
Theorem detect_too_few_events (events : list LogEvent) (metrics : gmap string pyval) :
  (length events < 5)%nat →
  detect_anomalies events metrics = Ok [].
Proof.
  intros H. unfold detect_anomalies.
  assert ((Z.of_nat (length events) <? MIN_EVENTS_FOR_ANALYSIS) = true) as ->.
  { apply Z.ltb_lt. unfold MIN_EVENTS_FOR_ANALYSIS. lia. }
  by rewrite orb_true_r.
Qed.

(** C2.  At least 5 events with latencies [latencies], for which numpy
    returns the mean [mean] and the standard deviation [std], and metrics
    whose [error_rate] is the float [r]: the detector returns a list [l];
    the latency-spike entry is in [l] exactly when the largest latency [m]
    is [>] [mean + 3 * std]; the error-rate entry is in [l] exactly when
    [r > 0.10]; [l] is the latency entry, if any, followed by the
    error-rate entry, if any. *)
Theorem detect_thresholds (events : list LogEvent) (metrics : gmap string pyval)
    (latencies : list Z) (mean std r : pyfloat) :
  (5 ≤ length events)%nat →
  Forall2 (λ e v, latency_ms e = Some v) events latencies →
  np_mean latencies = Ok mean →
  np_std latencies = Ok std →
  metrics !! "error_rate" = Some (PyFloat r) →
  ∃ m l,
    m ∈ latencies ∧ (∀ x, x ∈ latencies → x <= m) ∧
    detect_anomalies events metrics = Ok l ∧
    let spike := fgt (rnd (inject_Z m)) (fadd mean (fmul (rnd (3 # 1)) std)) in
    let high := fgt r (rnd (10 # 100)) in
    (CRITICAL_LATENCY ∈ l ↔ spike = true) ∧
    (WARNING_ERROR_RATE ∈ l ↔ high = true) ∧
    l = (if spike then [CRITICAL_LATENCY] else [])
        ++ (if high then [WARNING_ERROR_RATE] else []).
Proof.
  intros Hlen Hlat Hmean Hstd Hrate.
  destruct (array_max_is_max latencies) as (m & Hm & Hin & Hmax).
  { apply Forall2_length in Hlat. destruct latencies; [simpl in Hlat; lia|done]. }
  exists m.
  exists ((if fgt (rnd (inject_Z m)) (fadd mean (fmul (rnd (3 # 1)) std))
           then [CRITICAL_LATENCY] else [])
          ++ (if fgt r (rnd (10 # 100)) then [WARNING_ERROR_RATE] else [])).
  split; [done|]. split; [done|]. split.
  { unfold detect_anomalies. rewrite (detect_guard_passed _ Hlen).
    unfold detect_try.
    rewrite (mapM_getattr_Forall2 latency_ms events latencies Hlat). simpl.
    rewrite Hmean. simpl. rewrite Hstd. simpl. rewrite Hm. simpl.
    rewrite Hrate. simpl.
    unfold latency_spike, MAX_ERROR_RATE, LATENCY_STD_MULTIPLIER.
    change (inject_Z 3) with (3 # 1).
    by destruct (fgt (rnd (inject_Z m)) _), (fgt r _). }
  simpl. unfold CRITICAL_LATENCY, WARNING_ERROR_RATE.
  destruct (fgt (rnd (inject_Z m)) _), (fgt r _); simpl;
    rewrite ?elem_of_cons, ?elem_of_nil; repeat split; try done; auto;
    intros H; exfalso; repeat (destruct H as [H|H]; [discriminate H|]); done.
Qed.

(** C6 (amended).  When the body of the [try] raises anything but
    [AttributeError] after the list of signals has become [sigs], the
    detector returns: the result is [sigs] followed by the one entry
    ["ERROR: Anomaly detection failed"], where [sigs] is empty or the
    latency-spike entry alone. *)
Theorem detect_degraded (events : list LogEvent) (metrics : gmap string pyval)
    (e : exn) (sigs : list string) :
  (5 ≤ length events)%nat →
  detect_try events metrics [] = (Raise e, sigs) →
  e ≠ AttributeError →
  detect_anomalies events metrics
    = Ok (sigs ++ ["ERROR: Anomaly detection failed"%string]) ∧
  (sigs = [] ∨ sigs = [CRITICAL_LATENCY]).
Proof.
  intros Hlen Htry He.
  pose proof (detect_try_shape events metrics) as Hshape. rewrite Htry in Hshape.
  split; [|done].
  unfold detect_anomalies. rewrite (detect_guard_passed _ Hlen), Htry.
  by destruct e.
Qed.

(** C10.  A list returned by the detector has at most 2 entries, each of
    them one of the three messages, and the failure entry never comes with
    both threshold entries. *)
Theorem detect_output_bounded (events : list LogEvent) (metrics : gmap string pyval)
    (l : list string) :
  detect_anomalies events metrics = Ok l →
  (length l ≤ 2)%nat ∧
  Forall (λ s, s = CRITICAL_LATENCY ∨ s = WARNING_ERROR_RATE ∨ s = ERROR_DETECTION) l ∧
  (ERROR_DETECTION ∈ l → ¬ (CRITICAL_LATENCY ∈ l ∧ WARNING_ERROR_RATE ∈ l)).
Proof.
  unfold detect_anomalies.
  destruct (py_not events || _).
  { intros [= <-]. repeat split; [simpl; lia | constructor | by intros ?%elem_of_nil]. }
  pose proof (detect_try_shape events metrics) as Hshape.
  destruct (detect_try events metrics []) as [[[]|e] l'].
  - intros [= <-].
    destruct Hshape as [->|[->|[->| ->]]]; (split; [simpl; lia|]);
      (split; [repeat constructor; auto|]);
      unfold CRITICAL_LATENCY, WARNING_ERROR_RATE, ERROR_DETECTION;
      rewrite ?elem_of_cons, ?elem_of_nil; intros H; exfalso;
      repeat (destruct H as [H|H]; [discriminate H|]); done.
  - intros Hl. assert (l = l' ++ [ERROR_DETECTION]) as ->.
    { destruct e; by simplify_eq. }
    destruct Hshape as [->| ->]; (split; [simpl; lia|]);
      (split; [repeat constructor; auto|]);
      unfold CRITICAL_LATENCY, WARNING_ERROR_RATE, ERROR_DETECTION; simpl;
      rewrite ?elem_of_cons, ?elem_of_nil; intros _ [_ H];
      repeat (destruct H as [H|H]; [discriminate H|]); done.
Qed.

End DetectorClaims.

(** ** The aggregator *)

Section AggregatorClaims.
Context {N : Numerics}.
#[local] Arguments truediv : simpl never.


(** C7 (amended).  An event lacking an attribute that the computation
    reads fails the whole batch with
    [ValueError "Invalid log event structure"]: for the aggregator, with a
    positive window, the attributes are [latency_ms], [is_error],
    [tokens_used] and [user_id]; for the detector, with at least 5 events,
    the attribute is [latency_ms]. *)
Theorem malformed_event_rejected (events : list LogEvent) :
  (∀ window_minutes,
     0 < window_minutes →
     Exists (λ e, latency_ms e = None ∨ is_error e = None
                  ∨ tokens_used e = None ∨ user_id e = None) events →
     compute_metrics events window_minutes
       = Raise (ValueError "Invalid log event structure")) ∧
  (∀ metrics,
     (5 ≤ length events)%nat →
     Exists (λ e, latency_ms e = None) events →
     detect_anomalies events metrics
       = Raise (ValueError "Invalid log event structure")).
Proof.
  split.
  - intros w Hw Hbad. unfold compute_metrics.
    destruct events as [|e events]; [by apply Exists_nil in Hbad|].
    cbn [py_not]. apply Z.leb_gt in Hw as ->.
    by rewrite compute_try_malformed.
  - intros metrics Hlen Hbad. unfold detect_anomalies.
    rewrite (detect_guard_passed _ Hlen). unfold detect_try.
    by rewrite (mapM_getattr_Raise latency_ms).
Qed.

(** C9 (amended).  One event with latency [L], [T] tokens and error flag
    [err], a positive window of [W] minutes, and a numeric layer for which
    the mean and the 50th, 95th and 99th percentiles of the one-element
    array [[L]] are the float [L].  When [T / 1000] is within the range of
    a double, the aggregator returns a dictionary in which [avg_latency],
    [p50_latency], [p95_latency] and [p99_latency] are the float [L],
    [error_rate] is the float 1 when [err] holds and the float 0
    otherwise, [requests_per_min] is [1 // W] and [tokens_per_min] is
    [T // W].  When [T / 1000] is too large for a double, the aggregator
    raises [RuntimeError "Metric computation failed"]. *)
Theorem single_event_metrics (event : LogEvent) (user : string) (L T W : Z) (err : bool) :
  user_id event = Some user →
  latency_ms event = Some L →
  tokens_used event = Some T →
  is_error event = Some err →
  0 < W →
  np_mean [L] = Ok (rnd (inject_Z L)) →
  (∀ q, q ∈ [50; 95; 99] → np_percentile [L] q = Ok (rnd (inject_Z L))) →
  (Z.abs T < FLOAT_OVERFLOW * 1000 →
   ∃ metrics,
     compute_metrics [event] W = Ok metrics ∧
     metrics !! "avg_latency" = Some (PyFloat (rnd (inject_Z L))) ∧
     metrics !! "p50_latency" = Some (PyFloat (rnd (inject_Z L))) ∧
     metrics !! "p95_latency" = Some (PyFloat (rnd (inject_Z L))) ∧
     metrics !! "p99_latency" = Some (PyFloat (rnd (inject_Z L))) ∧
     metrics !! "error_rate"
       = Some (PyFloat (rnd (inject_Z (if err then 1 else 0)))) ∧
     metrics !! "requests_per_min" = Some (PyInt (1 / W)) ∧
     metrics !! "tokens_per_min" = Some (PyInt (T / W))) ∧
  (FLOAT_OVERFLOW * 1000 <= Z.abs T →
   compute_metrics [event] W = Raise (RuntimeError "Metric computation failed")).
Proof.
  intros Hu HL HT He HW Hmean Hperc.
  assert (compute_metrics [event] W =
          match
            thousands ← truediv T 1000;
            Ok (<["requests_per_min" := PyInt (1 / W)]>
               (<["avg_latency" := PyFloat (rnd (inject_Z L))]>
               (<["p50_latency" := PyFloat (rnd (inject_Z L))]>
               (<["p95_latency" := PyFloat (rnd (inject_Z L))]>
               (<["p99_latency" := PyFloat (rnd (inject_Z L))]>
               (<["error_rate" :=
                    PyFloat (rnd (inject_Z (if err then 1 else 0)))]>
               (<["tokens_per_min" := PyInt (T / W)]>
               (<["estimated_cost_usd" :=
                    PyFloat (fmul thousands TOKEN_COST_PER_1K)]>
               (<["per_user_requests" :=
                    PyDict (<[user := 1]> ∅)]> ∅)))))))))
          with
          | Ok metrics => Ok metrics
          | Raise AttributeError => Raise (ValueError "Invalid log event structure")
          | Raise _ => Raise (RuntimeError "Metric computation failed")
          end) as Hcm.
  { unfold compute_metrics. cbn [py_not]. apply Z.leb_gt in HW as ->.
    unfold compute_try. simpl. rewrite Hu, HL, HT, He. simpl.
    rewrite Hmean. simpl.
    rewrite !Hperc by (rewrite !elem_of_cons; auto). simpl.
    rewrite (truediv_share _ 1) by (destruct err; simpl; lia).
    simpl. rewrite !Z.add_0_r. by destruct err. }
  split.
  - intros HT'. rewrite Hcm, truediv_Ok by (done || lia).
    cbn [mbind result_bind]. eexists. split; [reflexivity|].
    repeat split; by simplify_map_eq.
  - intros HT'. by rewrite Hcm, truediv_overflow by (done || lia).
Qed.

End AggregatorClaims.

(** ** The claims on concrete inputs, with binary64 doubles *)

Section Binary64Runs.
Import SlidingWindow.
Existing Instance Binary64.numerics.

Lemma detect_too_few_events_witness :
  (length (replicate 4 InvalidEvent) < 5)%nat ∧
  detect_anomalies (replicate 4 InvalidEvent) ∅ = Ok [].
Proof.
  split; [simpl; lia|].
  apply (detect_too_few_events (replicate 4 InvalidEvent) ∅). simpl. lia.
Defined.



(** C7, as stated, fails: four objects without any attribute give the
    detector's empty answer; five objects that only have a latency pass
    the detector; an object without any attribute and a window of 0 give
    the window error; an object without timestamp passes the aggregator. *)
Lemma malformed_event_counterexample :
  detect_anomalies (replicate 4 InvalidEvent) ∅ = Ok [] ∧
  detect_anomalies (replicate 5 (latency_only_event 100)) ∅ = Ok [] ∧
  compute_metrics [InvalidEvent] 0
    = Raise (ValueError "window_minutes must be a positive integer") ∧
  ∃ metrics, compute_metrics [untimed_event] 5 = Ok metrics.
Proof.
  split; [reflexivity|]. split; [vm_compute; reflexivity|].
  split; [reflexivity|]. eexists. reflexivity.
Qed.

Lemma malformed_event_rejected_witness :
  let events := replicate 5 InvalidEvent in
  0 < 5 ∧
  (5 ≤ length events)%nat ∧
  Exists (λ e, latency_ms e = None) events ∧
  compute_metrics events 5 = Raise (ValueError "Invalid log event structure") ∧
  detect_anomalies events ∅ = Raise (ValueError "Invalid log event structure").
Proof.
  intros events.
  assert (Exists (λ e, latency_ms e = None) events) as Hbad by (by left).
  split; [lia|]. split; [simpl; lia|]. split; [exact Hbad|].
  destruct (malformed_event_rejected events) as [Hc Hd]. split.
  - apply Hc; [lia|]. by left; left.
  - apply Hd; [simpl; lia | exact Hbad].
Defined.

(** C6, as stated, fails on the text of the entry: with an [error_rate]
    that is [None] the comparison raises [TypeError] after the latency
    entry was appended, and the entry added last is spelled with a capital
    A. *)
Lemma degraded_text_counterexample :
  let metrics : gmap string pyval := {[ "error_rate"%string := PyNone ]} in
  detect_anomalies spike_events metrics
    = Ok ["CRITICAL: Latency spike detected"%string;
          "ERROR: Anomaly detection failed"%string] ∧
  ∀ l, detect_anomalies spike_events metrics = Ok l →
       "ERROR: anomaly detection failed"%string ∉ l.
Proof.
  intros metrics.
  assert (detect_anomalies spike_events metrics
          = Ok ["CRITICAL: Latency spike detected"%string;
                "ERROR: Anomaly detection failed"%string]) as H
    by (vm_compute; reflexivity).
  split; [exact H|]. intros l. rewrite H. intros [= <-].
  rewrite !elem_of_cons, elem_of_nil. intros [[=]|[[=]|[]]].
Qed.

Lemma detect_degraded_witness :
  let metrics : gmap string pyval := {[ "error_rate"%string := PyNone ]} in
  (5 ≤ length spike_events)%nat ∧
  detect_try spike_events metrics [] = (Raise TypeError, [CRITICAL_LATENCY]) ∧
  TypeError ≠ AttributeError ∧
  detect_anomalies spike_events metrics
    = Ok ([CRITICAL_LATENCY] ++ ["ERROR: Anomaly detection failed"%string]) ∧
  ([CRITICAL_LATENCY] = [] ∨ [CRITICAL_LATENCY] = [CRITICAL_LATENCY]).
Proof.
  intros metrics.
  assert (detect_try spike_events metrics [] = (Raise TypeError, [CRITICAL_LATENCY]))
    as Htry by (vm_compute; reflexivity).
  split; [simpl; lia|]. split; [exact Htry|]. split; [discriminate|].
  apply (detect_degraded spike_events metrics TypeError [CRITICAL_LATENCY]);
    [simpl; lia | exact Htry | discriminate].
Defined.

Lemma detect_thresholds_witness :
  let latencies := replicate 19 100 ++ [1000] in
  let metrics : gmap string pyval :=
    {[ "error_rate"%string := PyFloat (Binary64.of_Q (6 # 20)) ]} in
  (5 ≤ length spike_events)%nat ∧
  Forall2 (λ e v, latency_ms e = Some v) spike_events latencies ∧
  np_mean latencies = Ok 145%float ∧
  np_std latencies = Ok (Binary64.std latencies) ∧
  metrics !! "error_rate"%string = Some (PyFloat (Binary64.of_Q (6 # 20))) ∧
  ∃ m l,
    m ∈ latencies ∧ (∀ x, x ∈ latencies → x <= m) ∧
    detect_anomalies spike_events metrics = Ok l ∧
    let spike :=
      fgt (rnd (inject_Z m))
          (fadd 145%float (fmul (rnd (3 # 1)) (Binary64.std latencies))) in
    let high := fgt (Binary64.of_Q (6 # 20)) (rnd (10 # 100)) in
    (CRITICAL_LATENCY ∈ l ↔ spike = true) ∧
    (WARNING_ERROR_RATE ∈ l ↔ high = true) ∧
    l = (if spike then [CRITICAL_LATENCY] else [])
        ++ (if high then [WARNING_ERROR_RATE] else []).
Proof.
  intros latencies metrics.
  assert (Forall2 (λ e v, latency_ms e = Some v) spike_events latencies) as Hlat
    by (repeat constructor).
  split; [simpl; lia|]. split; [exact Hlat|].
  split; [reflexivity|]. split; [reflexivity|]. split; [reflexivity|].
  apply (detect_thresholds spike_events metrics latencies
           145%float (Binary64.std latencies) (Binary64.of_Q (6 # 20)));
    [simpl; lia | exact Hlat | reflexivity | reflexivity | reflexivity].
Defined.

Lemma detect_output_bounded_witness :
  let metrics : gmap string pyval :=
    {[ "error_rate"%string := PyFloat (Binary64.of_Q (6 # 20)) ]} in
  let l := [CRITICAL_LATENCY; WARNING_ERROR_RATE] in
  detect_anomalies spike_events metrics = Ok l ∧
  (length l ≤ 2)%nat ∧
  Forall (λ s, s = CRITICAL_LATENCY ∨ s = WARNING_ERROR_RATE ∨ s = ERROR_DETECTION) l ∧
  (ERROR_DETECTION ∈ l → ¬ (CRITICAL_LATENCY ∈ l ∧ WARNING_ERROR_RATE ∈ l)).
Proof.
  intros metrics l.
  assert (detect_anomalies spike_events metrics = Ok l) as H
    by (vm_compute; reflexivity).
  split; [exact H|].
  apply (detect_output_bounded spike_events metrics l). exact H.
Defined.

(** C9, as stated, fails for a token count whose thousandth is beyond the
    range of a double: the division raises [OverflowError] and the
    aggregator raises its [RuntimeError]. *)
Lemma single_event_counterexample :
  tokens_used huge_tokens_event = Some (10 ^ 400) ∧
  compute_metrics [huge_tokens_event] 5
    = Raise (RuntimeError "Metric computation failed").
Proof. split; reflexivity. Qed.

(** The input of test_single_event_computes_basic_metrics. *)
Lemma single_event_metrics_witness :
  let event := sample_event 200 100 false in
  user_id event = Some "user123"%string ∧
  latency_ms event = Some 200 ∧
  tokens_used event = Some 100 ∧
  is_error event = Some false ∧
  0 < 5 ∧
  np_mean [200] = Ok (rnd (inject_Z 200)) ∧
  (∀ q, q ∈ [50; 95; 99] → np_percentile [200] q = Ok (rnd (inject_Z 200))) ∧
  Z.abs 100 < FLOAT_OVERFLOW * 1000 ∧
  ∃ metrics,
    compute_metrics [event] 5 = Ok metrics ∧
    metrics !! "avg_latency"%string = Some (PyFloat (rnd (inject_Z 200))) ∧
    metrics !! "p50_latency"%string = Some (PyFloat (rnd (inject_Z 200))) ∧
    metrics !! "p95_latency"%string = Some (PyFloat (rnd (inject_Z 200))) ∧
    metrics !! "p99_latency"%string = Some (PyFloat (rnd (inject_Z 200))) ∧
    metrics !! "error_rate"%string = Some (PyFloat (rnd (inject_Z 0))) ∧
    metrics !! "requests_per_min"%string = Some (PyInt (1 / 5)) ∧
    metrics !! "tokens_per_min"%string = Some (PyInt (100 / 5)).
Proof.
  intros event.
  assert (∀ q, q ∈ [50; 95; 99] → np_percentile [200] q = Ok (rnd (inject_Z 200)))
    as Hperc.
  { intros q. rewrite !elem_of_cons, elem_of_nil.
    intros [->|[->|[->|[]]]]; reflexivity. }
  assert (Z.abs 100 < FLOAT_OVERFLOW * 1000) as Htok by (by vm_compute).
  repeat (split; [first [reflexivity | lia | exact Hperc | exact Htok]|]).
  exact (proj1 (single_event_metrics event "user123" 200 100 5 false
                  eq_refl eq_refl eq_refl eq_refl eq_refl eq_refl Hperc) Htok).
Defined.

(** The scenarios of the test suites, run through both calls of the
    route. *)
Example scenario_normal_latencies :
  route_anomalies ((λ i, sample_event (100 + Z.of_nat i) 50 false) <$> seq 0 20) = Ok [].
Proof. vm_compute. reflexivity. Qed.

Example scenario_latency_spike :
  route_anomalies spike_events = Ok [CRITICAL_LATENCY].
Proof. vm_compute. reflexivity. Qed.

Example scenario_high_error_rate :
  route_anomalies (replicate 6 (sample_event 100 50 true)
           ++ replicate 14 (sample_event 100 50 false))
  = Ok [WARNING_ERROR_RATE].
Proof. vm_compute. reflexivity. Qed.

Example scenario_error_rate_at_threshold :
  route_anomalies (replicate 2 (sample_event 100 50 true)
           ++ replicate 18 (sample_event 100 50 false))
  = Ok [].
Proof. vm_compute. reflexivity. Qed.

End Binary64Runs.

(** * Further properties of the code *)

(** ** The retention window, in any admission order *)

Section WindowMore.
Import SlidingWindow.

Lemma evict_all_expired now q :
  Forall (expired now) q → _evict_old_events now q = (Ok (), []).
Proof.
  unfold _evict_old_events. induction 1 as [|e q He _ IH]; simpl; [done|].
  apply expired_iff in He. by rewrite He.
Qed.

(** The sweep goes through a prefix of expired events. *)
Lemma evict_app_expired now p r :
  Forall (expired now) p →
  _evict_old_events now (p ++ r) = _evict_old_events now r.
Proof.
  unfold _evict_old_events. induction 1 as [|e p He _ IH]; simpl; [done|].
  apply expired_iff in He. by rewrite He.
Qed.

(** The sweep stops inside a deque of aware events that are not all
    expired, whatever follows it. *)
Lemma evict_app_live now q r :
  Forall (λ e, is_Some (time_of e)) q →
  ¬ Forall (expired now) q →
  _evict_old_events now (q ++ r) = (Ok (), (_evict_old_events now q).2 ++ r).
Proof.
  unfold _evict_old_events. induction 1 as [|e q [t Ht] _ IH]; intros Hlive.
  - destruct Hlive. constructor.
  - simpl.
    assert (timestamp_lt e (now - timedelta WINDOW_MINUTES)
            = Ok (t <? now - timedelta WINDOW_MINUTES)) as Hlt
      by (apply timestamp_lt_Ok; eauto).
    rewrite Hlt. destruct (t <? _) eqn:Hb; [|done].
    apply IH. intros Hq. apply Hlive. constructor; [|done].
    apply expired_iff. by rewrite Hlt.
Qed.

Lemma expired_has_time now e : expired now e → is_Some (time_of e).
Proof. intros (t & Ht & _). by exists t. Qed.

Lemma within_range_has_time now e : within_range now e → is_Some (time_of e).
Proof. intros (t & Ht & _). by exists t. Qed.

Lemma has_time_timestamp e :
  is_Some (time_of e) → ∃ t, timestamp e = Some (Some (Aware t)).
Proof.
  intros [t Ht]. exists t. by apply time_of_timestamp.
Qed.

(** The tail of a list survives the removal of a prefix that does not
    contain it. *)
Lemma last_of_suffix {A} (p l q : list A) (x : A) :
  q ++ [x] = p ++ l → x ∉ p → last l = Some x.
Proof.
  intros Heq Hx. destruct l as [|y l] using rev_ind.
  - rewrite app_nil_r in Heq. subst p. destruct Hx. set_solver.
  - rewrite app_assoc in Heq. apply app_inj_tail in Heq as [_ ->].
    by rewrite last_snoc.
Qed.

(** The sweep of [get_events] only pops from the head, and only events
    whose age exceeds the retention duration: the deque it found is a
    prefix of such events followed by the deque it leaves, which still
    holds every event that was within range, in whatever order the events
    were admitted and whether the call returns or raises. *)
Theorem snapshot_keeps_live_events (q : list LogEvent) (now : Z) :
  (∃ p, q = p ++ (get_events now q).2 ∧ Forall (expired now) p) ∧
  (get_events now q).2 `suffix_of` q ∧
  (∀ e, e ∈ q → within_range now e → e ∈ (get_events now q).2) ∧
  ((get_events now q).1 = Ok (get_events now q).2
   ∨ (get_events now q).1
       = Raise (RuntimeError "Failed to retrieve sliding window events")).
Proof.
  destruct (evict_prefix now q) as (p & Hp & Hexp).
  assert ((get_events now q).2 = (_evict_old_events now q).2) as Hq2.
  { unfold get_events. by destruct (_evict_old_events now q) as [[[]|x] q']. }
  rewrite Hq2. split; [by exists p|]. split; [by exists p|]. split.
  - intros e He Hin. rewrite Hp in He. apply elem_of_app in He as [He|He]; [|done].
    rewrite Forall_forall in Hexp.
    by destruct (expired_not_within_range now e (Hexp e He)).
  - unfold get_events. destruct (_evict_old_events now q) as [[[]|x] q']; auto.
Qed.

(** [get_events] returns the empty list, and empties the deque, exactly
    when every event of the deque is older than the retention duration. *)
Theorem snapshot_empty_iff (q : list LogEvent) (now : Z) :
  get_events now q = (Ok [], []) ↔ Forall (expired now) q.
Proof.
  split.
  - intros H. destruct (evict_prefix now q) as (p & Hp & Hexp).
    unfold get_events in H.
    destruct (_evict_old_events now q) as [[[]|x] q'] eqn:Hq; [|done].
    simplify_eq/=. by rewrite app_nil_r.
  - intros H. unfold get_events. by rewrite evict_all_expired.
Qed.

(** An event that is within range when it is added to a deque of events
    with aware timestamps is admitted, ends up at the tail, and is the
    last element of every snapshot taken while it is still within range. *)
Theorem add_fresh_event (q : list LogEvent) (event : LogEvent) (now later : Z) :
  Forall (λ e, is_Some (time_of e)) q →
  within_range now event →
  within_range later event →
  ∃ q' l,
    add now event q = (Ok (), q') ∧ q' `suffix_of` (q ++ [event]) ∧
    last q' = Some event ∧
    get_events later q' = (Ok l, l) ∧ last l = Some event.
Proof.
  intros Hq Hnow Hlater.
  assert (Forall (λ e, is_Some (time_of e)) (q ++ [event])) as Hall.
  { apply Forall_app. split; [done|]. constructor; [|done].
    by eapply within_range_has_time. }
  destruct (has_time_timestamp event) as [t Ht]; [by eapply within_range_has_time|].
  destruct (evict_returns now _ Hall) as [q' Hq'].
  destruct (evict_prefix now (q ++ [event])) as (p & Hp & Hexp).
  rewrite Hq' in Hp. simpl in Hp. rewrite Forall_forall in Hexp.
  assert (Forall (λ e, is_Some (time_of e)) q') as Hq'all.
  { rewrite Hp in Hall. by apply Forall_app in Hall as [_ ?]. }
  destruct (evict_returns later _ Hq'all) as [l Hl].
  destruct (evict_prefix later q') as (p' & Hp' & Hexp').
  rewrite Hl in Hp'. simpl in Hp'. rewrite Forall_forall in Hexp'.
  assert (last q' = Some event) as Hlast.
  { apply (last_of_suffix p q' q); [done|].
    intros Hin. by destruct (expired_not_within_range now event (Hexp _ Hin)). }
  exists q', l. split; [|split; [by exists p|split; [done|split]]].
  - unfold add. rewrite Ht. cbn [getattr]. by rewrite Hq'.
  - unfold get_events. by rewrite Hl.
  - destruct q' as [|y q'] using rev_ind; [done|].
    rewrite last_snoc in Hlast. simplify_eq.
    apply (last_of_suffix p' l q'); [done|].
    intros Hin. by destruct (expired_not_within_range later event (Hexp' _ Hin)).
Qed.

(** The sweep is not a full scan: an event that is already older than the
    retention duration when it is added behind a head that is within range
    stays in the deque and is returned by [get_events]. *)
Theorem late_event_retained (head_event event : LogEvent) (q : list LogEvent) (now : Z) :
  within_range now head_event →
  expired now event →
  let q' := head_event :: q ++ [event] in
  add now event (head_event :: q) = (Ok (), q') ∧
  get_events now q' = (Ok q', q') ∧
  event ∈ q'.
Proof.
  intros Hhead Hexp q'.
  destruct (has_time_timestamp event) as [t Ht]; [by eapply expired_has_time|].
  assert (_evict_old_events now q' = (Ok (), q')) as Hq'.
  { apply evict_fixed. by intros e [= <-]. }
  split; [|split].
  - unfold add. rewrite Ht. cbn [getattr].
    change ((head_event :: q) ++ [event]) with q'. by rewrite Hq'.
  - unfold get_events. by rewrite Hq'.
  - unfold q'. set_solver.
Qed.

(** The outcome of the ingest route on a deque of events with aware
    timestamps.  An object without [timestamp] attribute is answered 500
    and an event whose timestamp is [None] is answered 400, both leaving
    the deque as it was.  An event with an aware timestamp is answered
    [{"status": "ok"}] and the deque becomes what the sweep leaves of the
    deque with the event appended.  An event with an offset-naive
    timestamp is appended too: when every event of the deque has expired
    the sweep reaches it, the comparison raises, the answer is 500 and the
    event is left alone in the deque; otherwise the sweep stops before it
    and the answer is [{"status": "ok"}]. *)
Theorem ingest_log_outcome (q : list LogEvent) (event : LogEvent) (now : Z) :
  Forall (λ e, is_Some (time_of e)) q →
  match timestamp event with
  | None =>
      ingest_log now event q
      = (Raise (HTTPException 500 "Failed to ingest log event"), q)
  | Some None =>
      ingest_log now event q
      = (Raise (HTTPException 400 "LogEvent timestamp cannot be None"), q)
  | Some (Some (Aware _)) =>
      ingest_log now event q
      = (Ok {[ "status"%string := "ok"%string ]},
         (_evict_old_events now (q ++ [event])).2)
  | Some (Some (Naive _)) =>
      (Forall (expired now) q →
       ingest_log now event q
       = (Raise (HTTPException 500 "Failed to ingest log event"), [event])) ∧
      (¬ Forall (expired now) q →
       ingest_log now event q
       = (Ok {[ "status"%string := "ok"%string ]},
          (_evict_old_events now q).2 ++ [event]))
  end.
Proof.
  intros Hq. unfold ingest_log, add.
  destruct (timestamp event) as [[[t|t]|]|] eqn:Ht; cbn [getattr]; [| |done..].
  - destruct (evict_returns now (q ++ [event])) as [q' Hq'].
    { apply Forall_app. split; [done|]. constructor; [|done].
      exists t. by apply time_of_timestamp. }
    by rewrite Hq'.
  - split.
    + intros Hexp. rewrite (evict_app_expired now q [event] Hexp).
      unfold _evict_old_events. simpl. unfold timestamp_lt. by rewrite Ht.
    + intros Hlive. by rewrite (evict_app_live now q [event] Hq Hlive).
Qed.

(** The window the ingest route leaves behind, whether it returns or
    raises. *)
Lemma ingest_log_window (q : list LogEvent) (event : LogEvent) (now : Z) :
  (ingest_log now event q).2 =
    match timestamp event with
    | Some (Some _) => (_evict_old_events now (q ++ [event])).2
    | _ => q
    end.
Proof.
  unfold ingest_log, add.
  destruct (timestamp event) as [[t|]|]; cbn [getattr]; [|done..].
  by destruct (_evict_old_events now (q ++ [event])) as [[[]|[]] q'].
Qed.

Lemma ingest_all_invariant (calls : list (Z * LogEvent)) (q : list LogEvent) :
  Forall (λ e, is_Some (datetime_of e)) q →
  Forall (λ e, is_Some (datetime_of e)) (ingest_all calls q) ∧
  ingest_all calls q
    `suffix_of` (q ++ filter (λ e, is_Some (datetime_of e)) (calls.*2)).
Proof.
  revert q. induction calls as [|[now e] calls IH]; intros q Hq; csimpl.
  - split; [done|]. by rewrite app_nil_r.
  - rewrite (ingest_log_window q e now).
    destruct (timestamp e) as [[t|]|] eqn:Ht; simpl.
    + assert (is_Some (datetime_of e)) as He
        by (unfold datetime_of; rewrite Ht; by eexists).
      rewrite filter_cons_True by done.
      destruct (evict_prefix now (q ++ [e])) as (p & Hp & _).
      set (q1 := (_evict_old_events now (q ++ [e])).2) in *.
      assert (Forall (λ e, is_Some (datetime_of e)) q1) as Hq1.
      { assert (Forall (λ e, is_Some (datetime_of e)) (q ++ [e])) as Hall.
        { apply Forall_app. split; [done|]. by constructor. }
        rewrite Hp in Hall. by apply Forall_app in Hall as [_ ?]. }
      destruct (IH _ Hq1) as [IH1 IH2]. split; [done|].
      etrans; [exact IH2|].
      rewrite (cons_middle e), app_assoc, Hp, <- app_assoc. by apply suffix_app_r.
    + assert (¬ is_Some (datetime_of e)) as He.
      { unfold datetime_of. rewrite Ht. simpl. by intros [? [=]]. }
      rewrite filter_cons_False by done. by apply IH.
    + assert (¬ is_Some (datetime_of e)) as He.
      { unfold datetime_of. rewrite Ht. simpl. by intros [? [=]]. }
      rewrite filter_cons_False by done. by apply IH.
Qed.

(** Whatever is sent to the ingest route, starting from the empty window:
    an event whose timestamp is missing or [None] never enters the deque,
    and the deque is a suffix of the other events in their order of
    arrival.  When none of the events sent has an offset-naive timestamp,
    [get_events] returns. *)
Theorem window_invariant (calls : list (Z * LogEvent)) (now : Z) :
  let q := ingest_all calls [] in
  Forall (λ e, is_Some (datetime_of e)) q ∧
  q `suffix_of` filter (λ e, is_Some (datetime_of e)) (calls.*2) ∧
  (Forall (λ e, datetime_of e = None ∨ is_Some (time_of e)) (calls.*2) →
   ∃ l, get_events now q = (Ok l, l)).
Proof.
  intros q. subst q.
  destruct (ingest_all_invariant calls []) as [Hq Hsuf]; [constructor|].
  split; [done|]. split; [done|]. intros Haware.
  assert (Forall (λ e, is_Some (time_of e)) (ingest_all calls [])) as Hq'.
  { rewrite Forall_forall in Hq, Haware |- *. intros e He.
    destruct Hsuf as [k Hk]. simpl in Hk.
    assert (e ∈ calls.*2) as Hin.
    { eapply (list_elem_of_filter (λ e, is_Some (datetime_of e))).
      rewrite Hk. apply elem_of_app. by right. }
    destruct (Haware e Hin) as [Hnone|?]; [|done].
    destruct (Hq e He) as [d Hd]. congruence. }
  destruct (evict_returns now _ Hq') as [l Hl]. exists l.
  unfold get_events. by rewrite Hl.
Qed.

(** An event with an offset-naive timestamp at the head of the deque
    blocks the window: at every clock reading [get_events] raises and
    leaves the deque as it is, and [add] of an event that has a timestamp
    raises after having appended the event. *)
Theorem naive_head_blocks_window (head_event event : LogEvent) (w : Z)
    (q : list LogEvent) (now : Z) :
  datetime_of head_event = Some (Naive w) →
  get_events now (head_event :: q)
    = (Raise (RuntimeError "Failed to retrieve sliding window events"),
       head_event :: q) ∧
  (is_Some (datetime_of event) →
   add now event (head_event :: q)
     = (Raise (RuntimeError "Sliding window update failed"),
        head_event :: q ++ [event])).
Proof.
  intros Hhead.
  assert (timestamp head_event = Some (Some (Naive w))) as Ht.
  { unfold datetime_of in Hhead. by destruct (timestamp head_event) as [[?|]|]; simplify_eq/=. }
  assert (∀ l, _evict_old_events now (head_event :: l)
               = (Raise TypeError, head_event :: l)) as Hev.
  { intros l. unfold _evict_old_events. simpl. unfold timestamp_lt. by rewrite Ht. }
  split.
  - unfold get_events. by rewrite Hev.
  - intros [d Hd]. unfold add.
    assert (timestamp event = Some (Some d)) as ->.
    { unfold datetime_of in Hd. by destruct (timestamp event) as [[?|]|]; simplify_eq/=. }
    cbn [getattr]. change ((head_event :: q) ++ [event]) with (head_event :: q ++ [event]).
    by rewrite Hev.
Qed.

End WindowMore.

(** ** The aggregator on any number of events *)

Section AggregatorMore.
Context {N : Numerics}.

Lemma mapM_getattr_omap {A} (f : LogEvent → option A) (events : list LogEvent) :
  Forall (λ e, is_Some (f e)) events →
  mapM (λ e, getattr (f e)) events = Ok (omap f events).
Proof.
  induction 1 as [|e events [v Hv] _ IH]; simpl; [done|].
  by rewrite Hv, IH.
Qed.

Lemma errors_of_cons (e : LogEvent) (events : list LogEvent) :
  errors_of (e :: events)
  = (if decide (is_error e = Some true) then 1 else 0) + errors_of events.
Proof.
  unfold errors_of. rewrite filter_cons. case_decide; simpl length; lia.
Qed.

Lemma sum_errors (events : list LogEvent) :
  sum_Z ((λ b : bool, if b then 1 else 0) <$> omap is_error events)
  = errors_of events.
Proof.
  induction events as [|e events IH]; [done|].
  rewrite errors_of_cons, <- IH. simpl.
  destruct (is_error e) as [[|]|]; reflexivity.
Qed.

Lemma sum_tokens (events : list LogEvent) :
  sum_Z (omap tokens_used events) = tokens_of events.
Proof.
  unfold tokens_of. induction events as [|e events IH]; [done|].
  csimpl. rewrite <- IH. simpl. destruct (tokens_used e); reflexivity.
Qed.

Lemma errors_of_bounds (events : list LogEvent) :
  0 <= errors_of events <= Z.of_nat (length events).
Proof.
  unfold errors_of. pose proof (length_filter (λ e, is_error e = Some true) events).
  lia.
Qed.

Lemma requests_of_cons (u : string) (e : LogEvent) (events : list LogEvent) :
  requests_of u (e :: events)
  = (if decide (user_id e = Some u) then 1 else 0) + requests_of u events.
Proof.
  unfold requests_of. rewrite filter_cons. case_decide; simpl length; lia.
Qed.

Lemma requests_of_nonneg (u : string) (events : list LogEvent) :
  0 <= requests_of u events.
Proof. unfold requests_of. lia. Qed.

(** The loop over [per_user_requests] adds to each key the number of
    events of that user and creates no other key. *)
Lemma count_requests_spec (events : list LogEvent) (m : gmap string Z) :
  Forall (λ e, is_Some (user_id e)) events →
  ∃ m', count_requests events m = Ok m' ∧
    ∀ u, m' !! u = if requests_of u events =? 0 then m !! u
                   else Some (default 0 (m !! u) + requests_of u events).
Proof.
  intros H. revert m. induction H as [|e events [v Hv] _ IH]; intros m.
  - exists m. split; [done|]. intros u. done.
  - simpl. rewrite Hv. simpl.
    destruct (IH (<[v:=default 0 (m !! v) + 1]> m)) as (m' & Hm' & Hlook).
    exists m'. split; [done|]. intros u. rewrite Hlook, requests_of_cons, Hv.
    pose proof (requests_of_nonneg u events) as Hnn.
    destruct (decide (Some v = Some u)) as [[= ->]|Hne].
    + rewrite lookup_insert_eq. simpl.
      destruct (1 + requests_of u events =? 0) eqn:Hz'; [apply Z.eqb_eq in Hz'; lia|].
      destruct (requests_of u events =? 0) eqn:Hz; f_equal; [|lia].
      apply Z.eqb_eq in Hz. lia.
    + rewrite lookup_insert_ne by congruence. simpl. done.
Qed.

Lemma not_aggregable (e : LogEvent) :
  ¬ aggregable e →
  latency_ms e = None ∨ is_error e = None ∨ tokens_used e = None ∨ user_id e = None.
Proof.
  unfold aggregable. intros H.
  destruct (latency_ms e); [|by left].
  destruct (is_error e); [|by right; left].
  destruct (tokens_used e); [|by right; right; left].
  destruct (user_id e); [|by right; right; right].
  destruct H. repeat split; by eexists.
Qed.

(** On events that have the four attributes the body of the [try] is
    left with the numeric calls: everything else is determined. *)
Lemma compute_try_aggregable (events : list LogEvent) (window_minutes : Z) :
  events ≠ [] →
  Forall aggregable events →
  ∃ counts,
    (∀ u, counts !! u = if requests_of u events =? 0 then None
                        else Some (requests_of u events)) ∧
    compute_try events window_minutes =
      (avg_latency ← np_mean (omap latency_ms events);
       p50_latency ← np_percentile (omap latency_ms events) 50;
       p95_latency ← np_percentile (omap latency_ms events) 95;
       p99_latency ← np_percentile (omap latency_ms events) 99;
       thousands ← truediv (tokens_of events) 1000;
       Ok (<["requests_per_min" :=
               PyInt (Z.of_nat (length events) / window_minutes)]>
          (<["avg_latency" := PyFloat avg_latency]>
          (<["p50_latency" := PyFloat p50_latency]>
          (<["p95_latency" := PyFloat p95_latency]>
          (<["p99_latency" := PyFloat p99_latency]>
          (<["error_rate" :=
               PyFloat (rnd (inject_Z (errors_of events)
                             / inject_Z (Z.of_nat (length events)))%Q)]>
          (<["tokens_per_min" := PyInt (tokens_of events / window_minutes)]>
          (<["estimated_cost_usd" := PyFloat (fmul thousands TOKEN_COST_PER_1K)]>
          (<["per_user_requests" := PyDict counts]> ∅)))))))))).
Proof.
  intros Hne Hagg.
  destruct (count_requests_spec events ∅) as (counts & Hcounts & Hlook).
  { eapply Forall_impl; [exact Hagg|]. by intros e (_ & _ & _ & ?). }
  exists counts. split.
  { intros u. rewrite Hlook, lookup_empty. simpl.
    by destruct (requests_of u events =? 0). }
  unfold compute_try.
  rewrite (mapM_getattr_omap latency_ms), (mapM_getattr_omap is_error),
    (mapM_getattr_omap tokens_used), Hcounts;
    try (eapply Forall_impl; [exact Hagg|]; by intros e (? & ? & ? & ?)).
  cbn [mbind result_bind]. rewrite sum_errors, sum_tokens.
  rewrite (truediv_share (errors_of events)).
  2:{ apply errors_of_bounds. }
  2:{ destruct events; [done|]. simpl length. lia. }
  destruct (np_mean _); [|done]. cbn [mbind result_bind].
  destruct (np_percentile _ 50); [|done]. cbn [mbind result_bind].
  destruct (np_percentile _ 95); [|done]. cbn [mbind result_bind].
  destruct (np_percentile _ 99); done.
Qed.

Lemma compute_metrics_Ok_inv (events : list LogEvent) (window_minutes : Z)
    (metrics : gmap string pyval) :
  compute_metrics events window_minutes = Ok metrics →
  events ≠ [] →
  0 < window_minutes ∧ Forall aggregable events
  ∧ compute_try events window_minutes = Ok metrics.
Proof.
  unfold compute_metrics. destruct events as [|e events]; [done|]. cbn [py_not].
  destruct (window_minutes <=? 0) eqn:Hw; [done|]. apply Z.leb_gt in Hw.
  intros H _. split; [done|].
  destruct (decide (Forall aggregable (e :: events))) as [Hagg|Hagg].
  - split; [done|]. destruct (compute_try _ _) as [m|[]]; by simplify_eq.
  - apply not_Forall_Exists in Hagg; [|apply _].
    rewrite compute_try_malformed in H; [done|].
    eapply Exists_impl; [exact Hagg|]. intros x. apply not_aggregable.
Qed.

(** What a dictionary returned for a non-empty list of events is made
    of. *)
Lemma compute_metrics_Ok_dict (events : list LogEvent) (window_minutes : Z)
    (metrics : gmap string pyval) :
  compute_metrics events window_minutes = Ok metrics →
  events ≠ [] →
  ∃ counts avg_latency p50_latency p95_latency p99_latency thousands,
    (∀ u, counts !! u = if requests_of u events =? 0 then None
                        else Some (requests_of u events)) ∧
    metrics =
      <["requests_per_min" :=
          PyInt (Z.of_nat (length events) / window_minutes)]>
     (<["avg_latency" := PyFloat avg_latency]>
     (<["p50_latency" := PyFloat p50_latency]>
     (<["p95_latency" := PyFloat p95_latency]>
     (<["p99_latency" := PyFloat p99_latency]>
     (<["error_rate" :=
          PyFloat (rnd (inject_Z (errors_of events)
                        / inject_Z (Z.of_nat (length events)))%Q)]>
     (<["tokens_per_min" := PyInt (tokens_of events / window_minutes)]>
     (<["estimated_cost_usd" := PyFloat (fmul thousands TOKEN_COST_PER_1K)]>
     (<["per_user_requests" := PyDict counts]> ∅)))))))).
Proof.
  intros H Hne. destruct (compute_metrics_Ok_inv _ _ _ H Hne) as (Hw & Hagg & Htry).
  destruct (compute_try_aggregable events window_minutes Hne Hagg)
    as (counts & Hcounts & Heq).
  rewrite Heq in Htry. exists counts.
  destruct (np_mean _) as [avg|]; [|done]. cbn [mbind result_bind] in Htry.
  destruct (np_percentile _ 50) as [p50|]; [|done]. cbn [mbind result_bind] in Htry.
  destruct (np_percentile _ 95) as [p95|]; [|done]. cbn [mbind result_bind] in Htry.
  destruct (np_percentile _ 99) as [p99|]; [|done]. cbn [mbind result_bind] in Htry.
  destruct (truediv _ 1000) as [thousands|]; [|done].
  cbn [mbind result_bind] in Htry.
  exists avg, p50, p95, p99, thousands. split; [done|]. by simplify_eq.
Qed.

Lemma valid_log_event_aggregable (e : LogEvent) :
  valid_log_event e = true → aggregable e.
Proof.
  unfold valid_log_event, aggregable.
  destruct (timestamp e) as [[?|]|], (user_id e), (latency_ms e),
    (tokens_used e), (is_error e); try done;
    intros _; repeat split; by eexists.
Qed.

Lemma valid_tokens_nonneg (events : list LogEvent) :
  Forall (λ e, valid_log_event e = true) events → 0 <= tokens_of events.
Proof.
  unfold tokens_of. induction 1 as [|e events He _ IH]; [done|].
  csimpl. unfold sum_Z in *. simpl.
  assert (0 <= default 0 (tokens_used e)); [|lia].
  unfold valid_log_event in He.
  destruct (timestamp e) as [[?|]|], (user_id e), (latency_ms e),
    (tokens_used e), (is_error e); try done.
  simpl. apply andb_true_iff in He as [_ He]. by apply Z.leb_le.
Qed.

(** On events that have the four attributes, with a positive window and
    numpy calls that return: when the sum of the tokens divided by 1000 is
    within the range of a double, the aggregator returns a dictionary with
    exactly the nine keys of the metrics, whose latency entries are what
    numpy returned for the latencies of the events; when it is too large
    for a double, the aggregator raises
    [RuntimeError "Metric computation failed"]. *)
Theorem aggregate_returns (events : list LogEvent) (window_minutes : Z)
    (avg p50 p95 p99 : pyfloat) :
  events ≠ [] →
  0 < window_minutes →
  Forall aggregable events →
  np_mean (omap latency_ms events) = Ok avg →
  np_percentile (omap latency_ms events) 50 = Ok p50 →
  np_percentile (omap latency_ms events) 95 = Ok p95 →
  np_percentile (omap latency_ms events) 99 = Ok p99 →
  (Z.abs (tokens_of events) < FLOAT_OVERFLOW * 1000 →
   ∃ metrics : gmap string pyval,
     compute_metrics events window_minutes = Ok metrics ∧
     dom metrics =
       {[ "requests_per_min"%string; "avg_latency"%string; "p50_latency"%string;
          "p95_latency"%string; "p99_latency"%string; "error_rate"%string;
          "tokens_per_min"%string; "estimated_cost_usd"%string;
          "per_user_requests"%string ]} ∧
     metrics !! "avg_latency" = Some (PyFloat avg) ∧
     metrics !! "p50_latency" = Some (PyFloat p50) ∧
     metrics !! "p95_latency" = Some (PyFloat p95) ∧
     metrics !! "p99_latency" = Some (PyFloat p99)) ∧
  (FLOAT_OVERFLOW * 1000 <= Z.abs (tokens_of events) →
   compute_metrics events window_minutes
     = Raise (RuntimeError "Metric computation failed")).
Proof.
  intros Hne Hw Hagg Havg H50 H95 H99.
  destruct (compute_try_aggregable events window_minutes Hne Hagg)
    as (counts & _ & Heq).
  rewrite Havg, H50, H95, H99 in Heq. cbn [mbind result_bind] in Heq.
  assert (compute_metrics events window_minutes
          = match compute_try events window_minutes with
            | Ok metrics => Ok metrics
            | Raise AttributeError => Raise (ValueError "Invalid log event structure")
            | Raise _ => Raise (RuntimeError "Metric computation failed")
            end) as Hcm.
  { unfold compute_metrics. destruct events as [|e events]; [done|]. cbn [py_not].
    by apply Z.leb_gt in Hw as ->. }
  rewrite Hcm, Heq. split.
  - intros Htok. rewrite truediv_Ok by (done || lia). cbn [mbind result_bind].
    eexists. split; [reflexivity|]. split.
    { rewrite !dom_insert_L, dom_empty_L. set_solver. }
    repeat split; by simplify_map_eq.
  - intros Htok. by rewrite truediv_overflow by (done || lia).
Qed.

(** In a dictionary returned for a non-empty list of events,
    [per_user_requests] maps every user of the events to the number of
    their events and has no other key. *)
Theorem per_user_requests_counts (events : list LogEvent) (window_minutes : Z)
    (metrics : gmap string pyval) :
  compute_metrics events window_minutes = Ok metrics →
  events ≠ [] →
  ∃ counts,
    metrics !! "per_user_requests" = Some (PyDict counts) ∧
    ∀ user, counts !! user = if requests_of user events =? 0 then None
                             else Some (requests_of user events).
Proof.
  intros H Hne.
  destruct (compute_metrics_Ok_dict _ _ _ H Hne)
    as (counts & avg & p50 & p95 & p99 & thousands & Hcounts & ->).
  exists counts. split; [by simplify_map_eq | done].
Qed.

(** In a dictionary returned for a non-empty list of events, [error_rate]
    is the double nearest to the number of events flagged as errors
    divided by the number of events, a ratio between 0 and 1. *)
Theorem error_rate_is_ratio (events : list LogEvent) (window_minutes : Z)
    (metrics : gmap string pyval) :
  compute_metrics events window_minutes = Ok metrics →
  events ≠ [] →
  metrics !! "error_rate"
    = Some (PyFloat (rnd (inject_Z (errors_of events)
                          / inject_Z (Z.of_nat (length events)))%Q)) ∧
  0 <= errors_of events <= Z.of_nat (length events) ∧
  (0 <= inject_Z (errors_of events) / inject_Z (Z.of_nat (length events)) <= 1)%Q.
Proof.
  intros H Hne.
  destruct (compute_metrics_Ok_dict _ _ _ H Hne)
    as (counts & avg & p50 & p95 & p99 & thousands & Hcounts & ->).
  pose proof (errors_of_bounds events) as Hb.
  split; [by simplify_map_eq|]. split; [done|].
  assert (0 < Z.of_nat (length events)) as Hn.
  { destruct events; [done|]. simpl length. lia. }
  assert (0 < inject_Z (Z.of_nat (length events)))%Q as HnQ.
  { change 0%Q with (inject_Z 0). by rewrite <- Zlt_Qlt. }
  split.
  - apply Qle_shift_div_l; [done|]. rewrite Qmult_0_l.
    change 0%Q with (inject_Z 0). rewrite <- Zle_Qle. lia.
  - apply Qle_shift_div_r; [done|]. rewrite Qmult_1_l. rewrite <- Zle_Qle. lia.
Qed.

(** In a dictionary returned for a non-empty list of events,
    [requests_per_min] and [tokens_per_min] are the floors of the number
    of events and of the tokens of the events divided by the window; for
    events that meet the field constraints of the model both are
    non-negative, as the response model requires. *)
Theorem per_minute_rates (events : list LogEvent) (window_minutes : Z)
    (metrics : gmap string pyval) :
  compute_metrics events window_minutes = Ok metrics →
  events ≠ [] →
  ∃ rpm tpm,
    metrics !! "requests_per_min" = Some (PyInt rpm) ∧
    metrics !! "tokens_per_min" = Some (PyInt tpm) ∧
    window_minutes * rpm <= Z.of_nat (length events)
      < window_minutes * (rpm + 1) ∧
    window_minutes * tpm <= tokens_of events < window_minutes * (tpm + 1) ∧
    (Forall (λ e, valid_log_event e = true) events → 0 <= rpm ∧ 0 <= tpm).
Proof.
  intros H Hne.
  destruct (compute_metrics_Ok_inv _ _ _ H Hne) as (Hw & _ & _).
  destruct (compute_metrics_Ok_dict _ _ _ H Hne)
    as (counts & avg & p50 & p95 & p99 & thousands & Hcounts & ->).
  eexists _, _. split; [by simplify_map_eq|]. split; [by simplify_map_eq|].
  pose proof (Z.mul_div_le (Z.of_nat (length events)) _ Hw).
  pose proof (Z.mul_succ_div_gt (Z.of_nat (length events)) _ Hw).
  pose proof (Z.mul_div_le (tokens_of events) _ Hw).
  pose proof (Z.mul_succ_div_gt (tokens_of events) _ Hw).
  split; [lia|]. split; [lia|].
  intros Hvalid%valid_tokens_nonneg. split; apply Z.div_pos; lia.
Qed.

(** With numpy calls that never raise [AttributeError], and a positive
    window, the aggregator raises
    [ValueError "Invalid log event structure"] exactly when an event lacks
    one of the four attributes it reads; otherwise it returns, or raises
    [RuntimeError "Metric computation failed"]. *)
Theorem structure_error_iff (events : list LogEvent) (window_minutes : Z) :
  events ≠ [] →
  0 < window_minutes →
  (∀ a, np_mean a ≠ Raise AttributeError) →
  (∀ a q, np_percentile a q ≠ Raise AttributeError) →
  (compute_metrics events window_minutes
     = Raise (ValueError "Invalid log event structure")
   ↔ ¬ Forall aggregable events) ∧
  (Forall aggregable events →
   (∃ metrics, compute_metrics events window_minutes = Ok metrics)
   ∨ compute_metrics events window_minutes
       = Raise (RuntimeError "Metric computation failed")).
Proof.
  intros Hne Hw Hmean Hperc.
  assert (Forall aggregable events →
          (∃ metrics, compute_metrics events window_minutes = Ok metrics)
          ∨ compute_metrics events window_minutes
              = Raise (RuntimeError "Metric computation failed")) as Hagg.
  { intros Hagg.
    destruct (compute_try_aggregable events window_minutes Hne Hagg)
      as (counts & _ & Heq).
    unfold compute_metrics. destruct events as [|e events]; [done|]. cbn [py_not].
    apply Z.leb_gt in Hw as ->. rewrite Heq.
    pose proof (Hmean (omap latency_ms (e :: events))) as H0.
    pose proof (Hperc (omap latency_ms (e :: events)) 50) as H1.
    pose proof (Hperc (omap latency_ms (e :: events)) 95) as H2.
    pose proof (Hperc (omap latency_ms (e :: events)) 99) as H3.
    destruct (np_mean _) as [?|[]]; cbn [mbind result_bind]; try by right.
    destruct (np_percentile _ 50) as [?|[]]; cbn [mbind result_bind]; try by right.
    destruct (np_percentile _ 95) as [?|[]]; cbn [mbind result_bind]; try by right.
    destruct (np_percentile _ 99) as [?|[]]; cbn [mbind result_bind]; try by right.
    pose proof (truediv_not_AttributeError (tokens_of (e :: events)) 1000) as H4.
    destruct (truediv _ 1000) as [?|[]]; cbn [mbind result_bind]; try by right.
    left. by eexists. }
  split; [|done]. split.
  - intros H Hall. destruct (Hagg Hall) as [[m Hm]|Hr]; congruence.
  - intros Hnot. apply not_Forall_Exists in Hnot; [|apply _].
    unfold compute_metrics. destruct events as [|e events]; [done|]. cbn [py_not].
    apply Z.leb_gt in Hw as ->. rewrite compute_try_malformed; [done|].
    eapply Exists_impl; [exact Hnot|]. intros x. apply not_aggregable.
Qed.

End AggregatorMore.

(** ** The detector: what it reads and when it raises *)

Section DetectorMore.
Context {N : Numerics}.

Lemma mapM_getattr_fmap {A} (f : LogEvent → option A) (events : list LogEvent) :
  mapM (λ e, getattr (f e)) events = mapM getattr (f <$> events).
Proof.
  induction events as [|e events IH]; [done|].
  change (mapM (λ e, getattr (f e)) (e :: events))
    with (y ← getattr (f e); k ← mapM (λ e, getattr (f e)) events; mret (y :: k)).
  change (mapM getattr (f <$> e :: events))
    with (y ← getattr (f e); k ← mapM getattr (f <$> events); mret (y :: k)).
  by rewrite IH.
Qed.

Lemma array_max_not_AttributeError (latencies : list Z) :
  array_max latencies ≠ Raise AttributeError.
Proof. by destruct latencies. Qed.

Lemma py_gt_not_AttributeError (v : pyval) (c : pyfloat) :
  py_gt v c ≠ Raise AttributeError.
Proof. by destruct v. Qed.

(** The detector's answer once the latencies are read and numpy has
    returned: only the comparison with the error rate can still fail. *)
Lemma detect_anomalies_returns (events : list LogEvent) (metrics : gmap string pyval)
    (mean std : pyfloat) :
  (5 ≤ length events)%nat →
  Forall (λ e, is_Some (latency_ms e)) events →
  np_mean (omap latency_ms events) = Ok mean →
  np_std (omap latency_ms events) = Ok std →
  ∃ m,
    array_max (omap latency_ms events) = Ok m ∧
    detect_anomalies events metrics =
      let sigs := if latency_spike m mean std then [CRITICAL_LATENCY] else [] in
      match py_gt (default (PyFloat (rnd 0)) (metrics !! "error_rate"))
                  MAX_ERROR_RATE with
      | Ok high => Ok (sigs ++ if high then [WARNING_ERROR_RATE] else [])
      | Raise _ => Ok (sigs ++ [ERROR_DETECTION])
      end.
Proof.
  intros Hlen Hlat Hmean Hstd.
  destruct (mapM_getattr_Ok latency_ms events Hlat) as (vs & Hvs & Hlenvs).
  rewrite (mapM_getattr_omap latency_ms events Hlat) in Hvs. simplify_eq.
  destruct (array_max_is_max (omap latency_ms events)) as (m & Hm & _).
  { intros Hnil. rewrite Hnil in Hlenvs. simpl in Hlenvs. lia. }
  exists m. split; [done|].
  unfold detect_anomalies. rewrite (detect_guard_passed _ Hlen). unfold detect_try.
  rewrite (mapM_getattr_omap latency_ms events Hlat). cbn [mbind result_bind].
  rewrite Hmean. cbn [mbind result_bind]. rewrite Hstd. cbn [mbind result_bind].
  rewrite Hm. cbn [mbind result_bind].
  pose proof (py_gt_not_AttributeError
                (default (PyFloat (rnd 0)) (metrics !! "error_rate"))
                MAX_ERROR_RATE) as Hgt.
  destruct (py_gt _ _) as [high|[]]; try done;
    by destruct (latency_spike m mean std); try destruct high.
Qed.

(** The detector reads nothing but the [latency_ms] attributes of the
    events and the [error_rate] entry of the metrics: two calls that agree
    on these give the same outcome. *)
Theorem detect_reads_only (events events' : list LogEvent)
    (metrics metrics' : gmap string pyval) :
  latency_ms <$> events = latency_ms <$> events' →
  metrics !! "error_rate" = metrics' !! "error_rate" →
  detect_anomalies events metrics = detect_anomalies events' metrics'.
Proof.
  intros Hlat Hrate.
  assert (length events = length events') as Hlen.
  { by rewrite <- (length_fmap latency_ms events), Hlat, length_fmap. }
  unfold detect_anomalies, detect_try.
  rewrite !mapM_getattr_fmap, Hlat, Hrate, Hlen.
  by destruct events, events'.
Qed.

(** Whatever the numeric layer does, the only exception the detector
    raises is [ValueError "Invalid log event structure"]; when numpy never
    raises [AttributeError], it raises exactly on 5 or more events one of
    which lacks [latency_ms]. *)
Theorem detect_raises_iff (events : list LogEvent) (metrics : gmap string pyval) :
  (∀ x, detect_anomalies events metrics = Raise x →
        x = ValueError "Invalid log event structure") ∧
  ((∀ a, np_mean a ≠ Raise AttributeError) →
   (∀ a, np_std a ≠ Raise AttributeError) →
   (detect_anomalies events metrics = Raise (ValueError "Invalid log event structure")
    ↔ (5 ≤ length events)%nat ∧ Exists (λ e, latency_ms e = None) events)).
Proof.
  split.
  - intros x. unfold detect_anomalies. destruct (_ || _); [done|].
    destruct (detect_try events metrics []) as [[[]|[]] l]; by intros [= <-].
  - intros Hmean Hstd.
    destruct (decide (5 ≤ length events)%nat) as [Hlen|Hlen].
    2:{ split; [|by intros [? _]].
        unfold detect_anomalies.
        replace (Z.of_nat (length events) <? MIN_EVENTS_FOR_ANALYSIS) with true.
        - by rewrite orb_true_r.
        - symmetry. apply Z.ltb_lt. unfold MIN_EVENTS_FOR_ANALYSIS. lia. }
    destruct (decide (Forall (λ e, is_Some (latency_ms e)) events)) as [Hlat|Hlat].
    + split.
      * intros Hraise. exfalso.
        pose proof (Hmean (omap latency_ms events)) as H1.
        pose proof (Hstd (omap latency_ms events)) as H2.
        unfold detect_anomalies in Hraise.
        rewrite (detect_guard_passed _ Hlen) in Hraise. unfold detect_try in Hraise.
        rewrite (mapM_getattr_omap latency_ms events Hlat) in Hraise.
        cbn [mbind result_bind] in Hraise.
        destruct (np_mean _) as [mean|[]]; try done;
          cbn [mbind result_bind] in Hraise; try done.
        destruct (np_std _) as [std|[]]; try done;
          cbn [mbind result_bind] in Hraise; try done.
        pose proof (array_max_not_AttributeError (omap latency_ms events)) as H3.
        destruct (array_max _) as [m|[]]; cbn [mbind result_bind] in Hraise;
          try done.
        pose proof (py_gt_not_AttributeError
                      (default (PyFloat (rnd 0)) (metrics !! "error_rate"))
                      MAX_ERROR_RATE) as Hgt.
        destruct (py_gt _ _) as [high|[]]; done.
      * intros [_ Hex]. exfalso. apply Exists_exists in Hex as (e & Hin & He).
        rewrite Forall_forall in Hlat. destruct (Hlat e Hin) as [v Hv]. congruence.
    + split; [intros _|intros _].
      * split; [done|]. apply not_Forall_Exists in Hlat; [|apply _].
        eapply Exists_impl; [exact Hlat|]. intros e He. simpl in He.
        destruct (latency_ms e); [|done]. destruct He. by eexists.
      * unfold detect_anomalies. rewrite (detect_guard_passed _ Hlen).
        unfold detect_try. rewrite (mapM_getattr_Raise latency_ms); [done|].
        apply not_Forall_Exists in Hlat; [|apply _].
        eapply Exists_impl; [exact Hlat|]. intros e He. simpl in He.
        destruct (latency_ms e); [|done]. destruct He. by eexists.
Qed.

(** The two calls of the metrics route on 5 or more events that have the
    four attributes, with numpy calls that return.  When the sum of the
    tokens divided by 1000 is within the range of a double, the
    error-rate entry is decided by the double nearest to the share of
    events flagged as errors, and follows the latency entry.  When it is
    too large for a double, the first call raises
    [RuntimeError "Metric computation failed"] and the detector is not
    called. *)
Theorem route_anomalies_thresholds (events : list LogEvent)
    (mean std p50 p95 p99 : pyfloat) :
  (5 ≤ length events)%nat →
  Forall aggregable events →
  np_mean (omap latency_ms events) = Ok mean →
  np_std (omap latency_ms events) = Ok std →
  np_percentile (omap latency_ms events) 50 = Ok p50 →
  np_percentile (omap latency_ms events) 95 = Ok p95 →
  np_percentile (omap latency_ms events) 99 = Ok p99 →
  (Z.abs (tokens_of events) < FLOAT_OVERFLOW * 1000 →
   ∃ m,
     m ∈ omap latency_ms events ∧ (∀ x, x ∈ omap latency_ms events → x <= m) ∧
     route_anomalies events =
       Ok ((if latency_spike m mean std then [CRITICAL_LATENCY] else [])
           ++ (if fgt (rnd (inject_Z (errors_of events)
                            / inject_Z (Z.of_nat (length events)))%Q)
                      MAX_ERROR_RATE
               then [WARNING_ERROR_RATE] else []))) ∧
  (FLOAT_OVERFLOW * 1000 <= Z.abs (tokens_of events) →
   route_anomalies events = Raise (RuntimeError "Metric computation failed")).
Proof.
  intros Hlen Hagg Hmean Hstd H50 H95 H99.
  assert (events ≠ []) as Hne by (destruct events; [simpl in Hlen; lia|done]).
  assert (Forall (λ e, is_Some (latency_ms e)) events) as Hlat.
  { eapply Forall_impl; [exact Hagg|]. by intros e (? & _). }
  destruct (compute_try_aggregable events 2 Hne Hagg) as (counts & _ & Heq).
  rewrite Hmean, H50, H95, H99 in Heq. cbn [mbind result_bind] in Heq.
  assert (compute_metrics events 2
          = match compute_try events 2 with
            | Ok metrics => Ok metrics
            | Raise AttributeError => Raise (ValueError "Invalid log event structure")
            | Raise _ => Raise (RuntimeError "Metric computation failed")
            end) as Hcm.
  { unfold compute_metrics. by destruct events as [|e events]. }
  unfold route_anomalies. rewrite Hcm, Heq. split.
  - intros Htok. rewrite truediv_Ok by (done || lia). cbn [mbind result_bind].
    match goal with |- context [detect_anomalies events ?d] => set (metrics := d) end.
    destruct (detect_anomalies_returns events metrics mean std Hlen Hlat Hmean Hstd)
      as (m & Hm & Hdet).
    destruct (array_max_is_max (omap latency_ms events)) as (m' & Hm' & Hin & Hmax).
    { intros Hnil. apply (f_equal length) in Hnil.
      destruct (mapM_getattr_Ok latency_ms events Hlat) as (vs & Hvs & Hlenvs).
      rewrite (mapM_getattr_omap latency_ms events Hlat) in Hvs. simplify_eq.
      simpl in Hnil. lia. }
    rewrite Hm in Hm'. simplify_eq. exists m'. split; [done|]. split; [done|].
    rewrite Hdet. unfold metrics. by simplify_map_eq.
  - intros Htok. by rewrite truediv_overflow by (done || lia).
Qed.

End DetectorMore.

(** ** The metrics route *)

Section RouteMore.
Import SlidingWindow.
Context {N : Numerics} {response : Type}.
Variable MetricsResponse : gmap string pyval → list string → result response.

Lemma compute_metrics_Raise (events : list LogEvent) (window_minutes : Z) (x : exn) :
  compute_metrics events window_minutes = Raise x →
  (∃ msg, x = ValueError msg) ∨ (∃ msg, x = RuntimeError msg).
Proof.
  unfold compute_metrics. destruct (py_not events); [done|].
  destruct (_ <=? _); [intros [= <-]; eauto|].
  destruct (compute_try _ _) as [?|[]]; intros [= <-]; eauto.
Qed.

Lemma detect_anomalies_Raise (events : list LogEvent) (metrics : gmap string pyval)
    (x : exn) :
  detect_anomalies events metrics = Raise x → ∃ msg, x = ValueError msg.
Proof.
  unfold detect_anomalies. destruct (_ || _); [done|].
  destruct (detect_try events metrics []) as [[[]|[]] l]; intros [= <-]; eauto.
Qed.

(** The metrics route never lets an exception other than [HTTPException]
    out, and sweeps the window as [get_events] does.  When the response
    constructor raises no [HTTPException] of its own, the status is 404,
    400 or 500, and the route answers 404 "No metrics available yet"
    exactly when every event of the window is older than the retention
    duration (an empty window included). *)
Theorem get_metrics_outcome (q : list LogEvent) (now : Z) :
  (get_metrics MetricsResponse now q).2 = (get_events now q).2 ∧
  ((∃ r, (get_metrics MetricsResponse now q).1 = Ok r)
   ∨ ∃ status detail,
       (get_metrics MetricsResponse now q).1 = Raise (HTTPException status detail)) ∧
  ((∀ m a status detail, MetricsResponse m a ≠ Raise (HTTPException status detail)) →
   (∀ status detail,
      (get_metrics MetricsResponse now q).1 = Raise (HTTPException status detail) →
      status = 404 ∨ status = 400 ∨ status = 500) ∧
   ((get_metrics MetricsResponse now q).1
      = Raise (HTTPException 404 "No metrics available yet")
    ↔ Forall (expired now) q)).
Proof.
  unfold get_metrics.
  destruct (get_events now q) as [snapshot q'] eqn:Hget. split.
  { by destruct (get_metrics_try MetricsResponse snapshot) as [?|[]]. }
  split.
  { destruct (get_metrics_try MetricsResponse snapshot) as [?|[]]; simpl; eauto. }
  intros HMR.
  assert (∀ s d, get_metrics_try MetricsResponse snapshot = Raise (HTTPException s d) →
                 snapshot = Ok [] ∧ s = 404 ∧ d = "No metrics available yet"%string)
    as H404.
  { intros s d. unfold get_metrics_try. destruct snapshot as [events|x]; simpl.
    - destruct events as [|e events]; cbn [py_not]; [by intros [= <- <-]|].
      destruct (compute_metrics _ 2) as [metrics|x] eqn:Hc; simpl.
      + destruct (detect_anomalies _ metrics) as [anomalies|x] eqn:Hd; simpl.
        * intros H. by destruct (HMR _ _ _ _ H).
        * intros [= ->]. by destruct (detect_anomalies_Raise _ _ _ Hd).
      + intros [= ->]. by destruct (compute_metrics_Raise _ _ _ Hc) as [[]|[]].
    - intros [= ->]. unfold get_events in Hget.
      destruct (_evict_old_events now q) as [[]?]; simplify_eq. }
  split.
  - intros s d.
    destruct (get_metrics_try MetricsResponse snapshot) as [?|[]] eqn:Htry;
      simpl; intros [= <- <-]; auto.
    destruct (H404 _ _ eq_refl) as (_ & -> & _). auto.
  - split.
    + intros H.
      destruct (get_metrics_try MetricsResponse snapshot) as [?|[]] eqn:Htry;
        simpl in H; simplify_eq.
      destruct (H404 _ _ eq_refl) as (-> & _ & _).
      destruct (evict_prefix now q) as (p & Hp & Hexp).
      unfold get_events in Hget.
      destruct (_evict_old_events now q) as [[[]|?] q1]; simplify_eq/=.
      by rewrite app_nil_r.
    + intros Hexp. unfold get_events in Hget.
      rewrite (evict_all_expired now q Hexp) in Hget. by simplify_eq.
Qed.

End RouteMore.

(** ** The further properties on concrete inputs, with binary64 doubles *)

Section Binary64RunsMore.
Import SlidingWindow.
Existing Instance Binary64.numerics.

Lemma result_value_Ok {A} (d : A) (r : result A) :
  is_ok r = true → r = Ok (result_value d r).
Proof. by destruct r. Qed.

Lemma add_fresh_event_witness :
  let now := 1700000000000000 in
  let later := now + 60000000 in
  let q := [make_event 5 now] in
  let event := make_event 0 now in
  Forall (λ e, is_Some (time_of e)) q ∧
  within_range now event ∧
  within_range later event ∧
  ∃ q' l,
    add now event q = (Ok (), q') ∧ q' `suffix_of` (q ++ [event]) ∧
    last q' = Some event ∧
    get_events later q' = (Ok l, l) ∧ last l = Some event.
Proof.
  intros now later q event.
  assert (Forall (λ e, is_Some (time_of e)) q) as Hq
    by (repeat constructor; by eexists).
  assert (within_range now event) as Hnow
    by (eexists; split; [reflexivity | vm_compute; discriminate]).
  assert (within_range later event) as Hlater
    by (eexists; split; [reflexivity | vm_compute; discriminate]).
  split; [exact Hq|]. split; [exact Hnow|]. split; [exact Hlater|].
  exact (add_fresh_event q event now later Hq Hnow Hlater).
Defined.

Lemma late_event_retained_witness :
  let now := 1700000000000000 in
  let head_event := make_event 1 now in
  let event := make_event 5 now in
  within_range now head_event ∧
  expired now event ∧
  add now event [head_event] = (Ok (), [head_event; event]) ∧
  get_events now [head_event; event]
    = (Ok [head_event; event], [head_event; event]) ∧
  event ∈ [head_event; event].
Proof.
  intros now head_event event.
  assert (within_range now head_event) as Hhead
    by (eexists; split; [reflexivity | vm_compute; discriminate]).
  assert (expired now event) as Hexp
    by (eexists; split; [reflexivity | vm_compute; reflexivity]).
  split; [exact Hhead|]. split; [exact Hexp|].
  exact (late_event_retained head_event event [] now Hhead Hexp).
Defined.

Lemma ingest_log_outcome_witness :
  let now := 1700000000000000 in
  let q := [make_event 0 now] in
  Forall (λ e, is_Some (time_of e)) q ∧
  (Forall (expired now) q →
   ingest_log now naive_event q
   = (Raise (HTTPException 500 "Failed to ingest log event"), [naive_event])) ∧
  (¬ Forall (expired now) q →
   ingest_log now naive_event q
   = (Ok {[ "status"%string := "ok"%string ]},
      (_evict_old_events now q).2 ++ [naive_event])).
Proof.
  intros now q.
  assert (Forall (λ e, is_Some (time_of e)) q) as Hq
    by (repeat constructor; by eexists).
  split; [exact Hq|].
  exact (ingest_log_outcome q naive_event now Hq).
Defined.

Lemma naive_head_blocks_window_witness :
  let now := 1700000000000000 in
  datetime_of naive_event = Some (Naive 0) ∧
  get_events now [naive_event]
    = (Raise (RuntimeError "Failed to retrieve sliding window events"),
       [naive_event]) ∧
  (is_Some (datetime_of (make_event 0 now)) →
   add now (make_event 0 now) [naive_event]
     = (Raise (RuntimeError "Sliding window update failed"),
        [naive_event; make_event 0 now])).
Proof.
  intros now. split; [reflexivity|].
  exact (naive_head_blocks_window naive_event (make_event 0 now) 0 [] now eq_refl).
Defined.

Lemma aggregate_returns_witness :
  let latencies := omap latency_ms spike_events in
  let avg := result_value 0%float (np_mean latencies) in
  let p50 := result_value 0%float (np_percentile latencies 50) in
  let p95 := result_value 0%float (np_percentile latencies 95) in
  let p99 := result_value 0%float (np_percentile latencies 99) in
  spike_events ≠ [] ∧ 0 < 2 ∧ Forall aggregable spike_events ∧
  np_mean latencies = Ok avg ∧
  np_percentile latencies 50 = Ok p50 ∧
  np_percentile latencies 95 = Ok p95 ∧
  np_percentile latencies 99 = Ok p99 ∧
  Z.abs (tokens_of spike_events) < FLOAT_OVERFLOW * 1000 ∧
  ∃ metrics : gmap string pyval,
    compute_metrics spike_events 2 = Ok metrics ∧
    dom metrics =
      {[ "requests_per_min"%string; "avg_latency"%string; "p50_latency"%string;
         "p95_latency"%string; "p99_latency"%string; "error_rate"%string;
         "tokens_per_min"%string; "estimated_cost_usd"%string;
         "per_user_requests"%string ]} ∧
    metrics !! "avg_latency"%string = Some (PyFloat avg) ∧
    metrics !! "p50_latency"%string = Some (PyFloat p50) ∧
    metrics !! "p95_latency"%string = Some (PyFloat p95) ∧
    metrics !! "p99_latency"%string = Some (PyFloat p99).
Proof.
  intros latencies avg p50 p95 p99.
  assert (spike_events ≠ []) as Hne by done.
  assert (0 < 2) as Hw by lia.
  assert (Forall aggregable spike_events) as Hagg
    by (repeat constructor; by eexists).
  assert (np_mean latencies = Ok avg) as Havg by (vm_compute; reflexivity).
  assert (np_percentile latencies 50 = Ok p50) as H50 by (vm_compute; reflexivity).
  assert (np_percentile latencies 95 = Ok p95) as H95 by (vm_compute; reflexivity).
  assert (np_percentile latencies 99 = Ok p99) as H99 by (vm_compute; reflexivity).
  split; [exact Hne|]. split; [exact Hw|]. split; [exact Hagg|].
  split; [exact Havg|]. split; [exact H50|]. split; [exact H95|].
  assert (Z.abs (tokens_of spike_events) < FLOAT_OVERFLOW * 1000) as Htok
    by (by vm_compute).
  split; [exact H99|]. split; [exact Htok|].
  exact (proj1 (aggregate_returns spike_events 2 avg p50 p95 p99
                  Hne Hw Hagg Havg H50 H95 H99) Htok).
Defined.

Lemma per_user_requests_counts_witness :
  let metrics := result_value ∅ (compute_metrics multi_user_events 2) in
  compute_metrics multi_user_events 2 = Ok metrics ∧
  multi_user_events ≠ [] ∧
  ∃ counts,
    metrics !! "per_user_requests"%string = Some (PyDict counts) ∧
    ∀ user, counts !! user
            = if requests_of user multi_user_events =? 0 then None
              else Some (requests_of user multi_user_events).
Proof.
  intros metrics.
  assert (compute_metrics multi_user_events 2 = Ok metrics) as H
    by (apply result_value_Ok; vm_compute; reflexivity).
  assert (multi_user_events ≠ []) as Hne by done.
  split; [exact H|]. split; [exact Hne|].
  exact (per_user_requests_counts multi_user_events 2 metrics H Hne).
Defined.

Lemma error_rate_is_ratio_witness :
  let events := replicate 6 (sample_event 100 50 true)
                ++ replicate 14 (sample_event 100 50 false) in
  let metrics := result_value ∅ (compute_metrics events 2) in
  compute_metrics events 2 = Ok metrics ∧
  events ≠ [] ∧
  metrics !! "error_rate"%string
    = Some (PyFloat (rnd (inject_Z (errors_of events)
                          / inject_Z (Z.of_nat (length events)))%Q)) ∧
  0 <= errors_of events <= Z.of_nat (length events) ∧
  (0 <= inject_Z (errors_of events) / inject_Z (Z.of_nat (length events)) <= 1)%Q.
Proof.
  intros events metrics.
  assert (compute_metrics events 2 = Ok metrics) as H
    by (apply result_value_Ok; vm_compute; reflexivity).
  assert (events ≠ []) as Hne by done.
  split; [exact H|]. split; [exact Hne|].
  exact (error_rate_is_ratio events 2 metrics H Hne).
Defined.

Lemma per_minute_rates_witness :
  let events := replicate 100 (sample_event 100 100 false) in
  let metrics := result_value ∅ (compute_metrics events 60) in
  compute_metrics events 60 = Ok metrics ∧
  events ≠ [] ∧
  ∃ rpm tpm,
    metrics !! "requests_per_min"%string = Some (PyInt rpm) ∧
    metrics !! "tokens_per_min"%string = Some (PyInt tpm) ∧
    60 * rpm <= Z.of_nat (length events) < 60 * (rpm + 1) ∧
    60 * tpm <= tokens_of events < 60 * (tpm + 1) ∧
    (Forall (λ e, valid_log_event e = true) events → 0 <= rpm ∧ 0 <= tpm).
Proof.
  intros events metrics.
  assert (compute_metrics events 60 = Ok metrics) as H
    by (apply result_value_Ok; vm_compute; reflexivity).
  assert (events ≠ []) as Hne by done.
  split; [exact H|]. split; [exact Hne|].
  exact (per_minute_rates events 60 metrics H Hne).
Defined.

Lemma structure_error_iff_witness :
  let events := [sample_event 100 50 false; InvalidEvent] in
  events ≠ [] ∧ 0 < 5 ∧
  (∀ a, np_mean a ≠ Raise AttributeError) ∧
  (∀ a q, np_percentile a q ≠ Raise AttributeError) ∧
  (compute_metrics events 5 = Raise (ValueError "Invalid log event structure")
   ↔ ¬ Forall aggregable events) ∧
  (Forall aggregable events →
   (∃ metrics, compute_metrics events 5 = Ok metrics)
   ∨ compute_metrics events 5 = Raise (RuntimeError "Metric computation failed")).
Proof.
  intros events.
  assert (∀ a, np_mean a ≠ Raise AttributeError) as Hmean by done.
  assert (∀ a q, np_percentile a q ≠ Raise AttributeError) as Hperc
    by (intros [|x a] q; done).
  split; [done|]. split; [lia|]. split; [exact Hmean|]. split; [exact Hperc|].
  apply (structure_error_iff events 5); [done | lia | exact Hmean | exact Hperc].
Defined.

Lemma detect_reads_only_witness :
  let events' := latency_only_event <$> (replicate 19 100 ++ [1000]) in
  let metrics : gmap string pyval :=
    {[ "error_rate"%string := PyFloat (Binary64.of_Q (6 # 20)) ]} in
  let metrics' : gmap string pyval := <[ "requests_per_min"%string := PyInt 3 ]> metrics in
  latency_ms <$> spike_events = latency_ms <$> events' ∧
  metrics !! "error_rate"%string = metrics' !! "error_rate"%string ∧
  detect_anomalies spike_events metrics = detect_anomalies events' metrics'.
Proof.
  intros events' metrics metrics'.
  assert (latency_ms <$> spike_events = latency_ms <$> events') as Hlat
    by (vm_compute; reflexivity).
  assert (metrics !! "error_rate"%string = metrics' !! "error_rate"%string) as Hrate
    by (unfold metrics'; by rewrite lookup_insert_ne).
  split; [exact Hlat|]. split; [exact Hrate|].
  exact (detect_reads_only spike_events events' metrics metrics' Hlat Hrate).
Defined.

Lemma route_anomalies_thresholds_witness :
  let latencies := omap latency_ms spike_events in
  let mean := result_value 0%float (np_mean latencies) in
  let std := result_value 0%float (np_std latencies) in
  let p50 := result_value 0%float (np_percentile latencies 50) in
  let p95 := result_value 0%float (np_percentile latencies 95) in
  let p99 := result_value 0%float (np_percentile latencies 99) in
  (5 ≤ length spike_events)%nat ∧
  Forall aggregable spike_events ∧
  np_mean latencies = Ok mean ∧
  np_std latencies = Ok std ∧
  np_percentile latencies 50 = Ok p50 ∧
  np_percentile latencies 95 = Ok p95 ∧
  np_percentile latencies 99 = Ok p99 ∧
  Z.abs (tokens_of spike_events) < FLOAT_OVERFLOW * 1000 ∧
  ∃ m,
    m ∈ latencies ∧
    (∀ x, x ∈ latencies → x <= m) ∧
    route_anomalies spike_events =
      Ok ((if latency_spike m mean std then [CRITICAL_LATENCY] else [])
          ++ (if fgt (rnd (inject_Z (errors_of spike_events)
                           / inject_Z (Z.of_nat (length spike_events)))%Q)
                     MAX_ERROR_RATE
              then [WARNING_ERROR_RATE] else [])).
Proof.
  intros latencies mean std p50 p95 p99.
  assert (5 ≤ length spike_events)%nat as Hlen by (vm_compute; lia).
  assert (Forall aggregable spike_events) as Hagg
    by (repeat constructor; by eexists).
  assert (np_mean latencies = Ok mean) as Hmean by (vm_compute; reflexivity).
  assert (np_std latencies = Ok std) as Hstd by (vm_compute; reflexivity).
  assert (np_percentile latencies 50 = Ok p50) as H50 by (vm_compute; reflexivity).
  assert (np_percentile latencies 95 = Ok p95) as H95 by (vm_compute; reflexivity).
  assert (np_percentile latencies 99 = Ok p99) as H99 by (vm_compute; reflexivity).
  split; [exact Hlen|]. split; [exact Hagg|]. split; [exact Hmean|].
  split; [exact Hstd|]. split; [exact H50|]. split; [exact H95|].
  assert (Z.abs (tokens_of spike_events) < FLOAT_OVERFLOW * 1000) as Htok
    by (by vm_compute).
  split; [exact H99|]. split; [exact Htok|].
  exact (proj1 (route_anomalies_thresholds spike_events mean std p50 p95 p99
                  Hlen Hagg Hmean Hstd H50 H95 H99) Htok).
Defined.

(** The metrics route on a window of one event taken 5 minutes after the
    event: 404, and the window is emptied. *)
Example get_metrics_expired_window :
  let now := 1700000000000000 in
  get_metrics unchecked_response (now + 300000000) [make_event 0 now]
  = (Raise (HTTPException 404 "No metrics available yet"), []).
Proof. reflexivity. Qed.

End Binary64RunsMore.
